(** * School portal: payment dialog, report and award pages, form scripts

    A shallow embedding of the client-side code of the school portal:
    - [FeesPaymentDialog.vue]: the payment dialog (validation, amount sent),
    - [Reports.vue] and [IndividualAwards.vue]: filter options, filtering,
      loading, ordinals,
    - the School Term Result and Assessment Plan form scripts.

    Conventions of the embedding.
    - A JavaScript number is either [NaN] or a finite value.  Finite values
      are canonical rationals ([Qc]): every finite double is a rational, the
      comparisons [<], [<=], [>] of finite doubles are the comparisons of
      their values, and canonical rationals have one representation per
      value.  A subtraction gives the exact difference rounded to the
      nearest double ([JsNumber.sub]).
    - Vue [ref]s and [reactive] objects of a component are the fields of a
      state record; a function that assigns to them returns the new record.
    - [console.log] and [console.error] calls are not modelled. *)

From Stdlib Require Import ZArith QArith Qcanon String Ascii List Bool Lia.
From Stdlib Require Import Sorted Permutation DecimalString.
Import ListNotations.

(** ** JavaScript numbers *)

Module Js.

Inductive number : Type :=
| NaN
| Num (q : Qc).

Definition zero : Qc := Q2Qc 0.

(** [x < y], [x <= y] and [x === y] on finite numbers. *)
Definition ltb (x y : Qc) : bool :=
  match Qccompare x y with Lt => true | _ => false end.

Definition leb (x y : Qc) : bool :=
  match Qccompare x y with Gt => false | _ => true end.

Definition eqb (x y : Qc) : bool :=
  match Qccompare x y with Eq => true | _ => false end.

(** [ToBoolean] on a number: [NaN] and [0] are falsy. *)
Definition truthy (n : number) : bool :=
  match n with
  | NaN => false
  | Num q => negb (eqb q zero)
  end.

(** [n || 0] for a number [n]. *)
Definition or_zero (n : number) : Qc :=
  match n with
  | NaN => zero
  | Num q => if eqb q zero then zero else q
  end.

(** [parseFloat] applied to a value that already is a number: the number
    is printed and read back, which gives the same finite number, and
    [NaN] stays [NaN]. *)
Definition parseFloat (n : number) : number := n.

(** [ToBoolean] on a string. *)
Definition str_truthy (s : string) : bool :=
  match s with
  | EmptyString => false
  | String _ _ => true
  end.

End Js.

(** ** Doubles: rounding and [Number::toString]

    A JavaScript number is an IEEE 754 binary64 value.  Its finite values
    are rationals, and an arithmetic result is the exact result rounded to
    the nearest double, ties to even.  Results beyond the largest double
    (which JavaScript turns into [Infinity]) are outside the model. *)

Module JsNumber.
Local Open Scope Z_scope.

(** The integer nearest to [n / d], ties to even, for [0 <= n] and
    [0 < d]. *)
Definition round_half_even (n d : Z) : Z :=
  let q := n / d in
  let r := n mod d in
  if 2 * r <? d then q
  else if d <? 2 * r then q + 1
  else if Z.even q then q else q + 1.

(** The integer part of the binary logarithm of [n / d], for [0 < n] and
    [0 < d]. *)
Definition floor_log2 (n d : Z) : Z :=
  let l := Z.log2 n - Z.log2 d in
  if 0 <=? l
  then if d * 2 ^ l <=? n then l else l - 1
  else if d <=? n * 2 ^ (- l) then l else l - 1.

(** The double nearest to [n / d], for [0 <= n] and [0 < d], as a pair
    [(m, e)] that stands for [m * 2 ^ e]: 53 bits of precision, and the
    exponent of the subnormal numbers at the bottom. *)
Definition nearest (n d : Z) : Z * Z :=
  if n =? 0 then (0, 0)
  else
    let e := Z.max (floor_log2 n d - 52) (-1074) in
    let m :=
      if 0 <=? e
      then round_half_even n (d * 2 ^ e)
      else round_half_even (n * 2 ^ (- e)) d in
    (m, e).

Definition value (me : Z * Z) : Q :=
  let (m, e) := me in
  if 0 <=? e then (m * 2 ^ e) # 1 else m # Z.to_pos (2 ^ (- e)).

(** A rational rounded to the nearest double. *)
Definition to_double (q : Qc) : Qc :=
  Q2Qc
    match Qnum q with
    | 0 => 0%Q
    | Zpos n => value (nearest (Zpos n) (Zpos (Qden q)))
    | Zneg n => Qopp (value (nearest (Zpos n) (Zpos (Qden q))))
    end.

(** [x - y] on doubles. *)
Definition sub (x y : Qc) : Qc := to_double (x - y)%Qc.

(** The double nearest to the integer [v], for [0 <= v]; an integer again
    from [2 ^ 53] on. *)
Definition integer_to_double (v : Z) : Z :=
  if v <? 2 ^ 53 then v
  else let (m, e) := nearest v 1 in m * 2 ^ e.

(** The non-negative integers that are doubles. *)
Definition is_double (x : Z) : bool :=
  (0 <=? x) && (x <? 2 ^ 1024) && (integer_to_double x =? x).

(** The exact decimal digits of an integer. *)
Definition decimal (n : Z) : string :=
  NilZero.string_of_int (Z.to_int n).

Definition digits_count (x : Z) : Z :=
  Z.of_nat (String.length (decimal x)).

(** [Number::toString] looks for the fewest significant digits that still
    read back as the same double.  For [k] digits the two decimals around
    [x] are tried; the result is [(c, p)], standing for [c * 10 ^ p], the
    closer of the two when both read back as [x], the even one in a tie. *)
Definition candidate (x k : Z) : option (Z * Z) :=
  let p := digits_count x - k in
  if p <=? 0 then Some (x, 0)
  else
    let lo := x / 10 ^ p in
    let hi := lo + 1 in
    let reads_back c := integer_to_double (c * 10 ^ p) =? x in
    let below := x - lo * 10 ^ p in
    let above := hi * 10 ^ p - x in
    match reads_back lo, reads_back hi with
    | true, true =>
        if below <? above then Some (lo, p)
        else if above <? below then Some (hi, p)
        else if Z.even lo then Some (lo, p) else Some (hi, p)
    | true, false => Some (lo, p)
    | false, true => Some (hi, p)
    | false, false => None
    end.

(** Seventeen significant digits identify every double. *)
Fixpoint shortest (x k : Z) (fuel : nat) : Z * Z :=
  match fuel with
  | O => (x, 0)
  | S fuel' =>
      match candidate x k with
      | Some cp => cp
      | None => shortest x (k + 1) fuel'
      end
  end.

(** Trailing zeros of the digits belong to the power of ten. *)
Fixpoint strip_zeros (c p : Z) (fuel : nat) : Z * Z :=
  match fuel with
  | O => (c, p)
  | S fuel' =>
      if (c mod 10 =? 0) && negb (c =? 0)
      then strip_zeros (c / 10) (p + 1) fuel'
      else (c, p)
  end.

Fixpoint zeros (n : nat) : string :=
  match n with
  | O => EmptyString
  | S n' => String "0" (zeros n')
  end.

(** [Number::toString] for a double [x] that is an integer with
    [2 ^ 53 <= x]: plain digits below [10 ^ 21], exponent notation from
    there on. *)
Definition toString_large (x : Z) : string :=
  let (c0, p0) := shortest x 1 17 in
  let (c, p) := strip_zeros c0 p0 400 in
  let digits := decimal c in
  let n := Z.of_nat (String.length digits) + p in
  if n <=? 21
  then (digits ++ zeros (Z.to_nat p))%string
  else
    match digits with
    | EmptyString => EmptyString
    | String d EmptyString =>
        (String d EmptyString ++ "e+" ++ decimal (n - 1))%string
    | String d rest =>
        (String d EmptyString ++ "." ++ rest ++ "e+" ++ decimal (n - 1))%string
    end.

(** [Number::toString] for a double that is an integer.  Below [2 ^ 53]
    every integer is a double of its own, so the fewest digits that read
    back are the integer's own digits. *)
Definition toString (x : Z) : string :=
  let magnitude (y : Z) : string :=
    if y <? 2 ^ 53 then decimal y else toString_large y in
  if x <? 0 then String "-" (magnitude (- x)) else magnitude x.

End JsNumber.

(** ** FeesPaymentDialog.vue *)

Module FeesPaymentDialog.
Import Js.
Local Open Scope string_scope.

(** [paymentType] is only ever assigned the literals ['Full'] (its initial
    value) and ['Partial']. *)
Inductive PaymentType : Type := Full | Partial.

(** The values [paymentAmount] takes.  It starts as [null]; the number
    input is bound with [v-model.number], which stores [parseFloat] of the
    input text when that is a number and the text itself otherwise, and a
    number input's text is a valid number or empty. *)
Inductive Amount : Type :=
| Null
| EmptyText
| Entered (q : Qc).

(** [ToBoolean] and [ToNumber] on those values. *)
Definition amount_truthy (a : Amount) : bool :=
  match a with
  | Entered q => truthy (Num q)
  | Null | EmptyText => false
  end.

Definition to_number (a : Amount) : Qc :=
  match a with
  | Entered q => q
  | Null | EmptyText => zero
  end.

(** An amount is missing when nothing was typed. *)
Definition missing (a : Amount) : Prop := a = Null \/ a = EmptyText.

(** The fields of [props.row] the dialog computes with. *)
Record Row : Type := mkRow {
  invoice : string;
  amount_outstanding_raw : number
}.

(** The refs of the component and the [billingDetails] object. *)
Record Dialog : Type := mkDialog {
  isProcessing : bool;
  paymentType : PaymentType;
  paymentAmount : Amount;
  paymentError : string;
  billing_email : string;
  billing_mobile_number : string
}.

Definition set_paymentError (e : string) (st : Dialog) : Dialog :=
  mkDialog (isProcessing st) (paymentType st) (paymentAmount st) e
           (billing_email st) (billing_mobile_number st).

Definition set_isProcessing (b : bool) (st : Dialog) : Dialog :=
  mkDialog b (paymentType st) (paymentAmount st) (paymentError st)
           (billing_email st) (billing_mobile_number st).

(** What the component does to the outside. *)
Inductive Effect : Type :=
| CreateToast (title description : string)
| CallInitiatePayment (sales_invoice : string) (payment_amount : Amount)
                      (email : string)
| SetLocation (href : string).

(** How the awaited call ends: it resolves to a result object, or throws. *)
Inductive CallOutcome : Type :=
| Resolved (success : bool) (authorization_url : string) (message : string)
| Thrown (message : string).

(** The larger of two numbers. *)
Definition Qcmax (x y : Qc) : Qc := if leb x y then y else x.

Section Component.
(** [Intl.NumberFormat('en-NG', ...).format] belongs to the platform. *)
Variable formatCurrency : Qc -> string.
Variable row : Row.

(** [parseFloat(props.row.amount_outstanding_raw) || 0] *)
Definition outstanding : Qc :=
  or_zero (parseFloat (amount_outstanding_raw row)).

(** [paymentAmount.value || 0], used as a number. *)
Definition paying (st : Dialog) : Qc :=
  if amount_truthy (paymentAmount st)
  then to_number (paymentAmount st)
  else zero.

Definition getRemainingAfter (st : Dialog) : string :=
  let remaining := JsNumber.sub outstanding (paying st) in
  formatCurrency (if ltb zero remaining then remaining else zero).

Definition msg_not_positive : string := "Amount must be greater than zero".

Definition msg_exceeds : string :=
  "Amount cannot exceed outstanding balance ("
    ++ formatCurrency outstanding ++ ")".

Definition validatePaymentAmount (st : Dialog) : bool * Dialog :=
  let st := set_paymentError "" st in
  if negb (amount_truthy (paymentAmount st))
     || leb (to_number (paymentAmount st)) zero
  then (false, set_paymentError msg_not_positive st)
  else if ltb outstanding (to_number (paymentAmount st))
  then (false, set_paymentError msg_exceeds st)
  else (true, st).

(** The result is used only as a condition, so its truthiness is all
    that is returned here; [&&] evaluates left to right and stops at the
    first falsy operand, so [validatePaymentAmount] runs last. *)
Definition isFormValid (st : Dialog) : bool * Dialog :=
  match paymentType st with
  | Full =>
      (str_truthy (billing_email st)
         && str_truthy (billing_mobile_number st), st)
  | Partial =>
      if str_truthy (billing_email st)
         && str_truthy (billing_mobile_number st)
         && amount_truthy (paymentAmount st)
         && ltb zero (to_number (paymentAmount st))
      then validatePaymentAmount st
      else (false, st)
  end.

(** [proceedToPayment] up to its [await]. *)
Definition proceedToPayment (st : Dialog) : Dialog * list Effect :=
  let (valid, st) := isFormValid st in
  if negb valid
  then (st, [CreateToast "Validation Error"
               "Please fill in all required fields correctly"])
  else
    let st := set_isProcessing true st in
    let amountToPay :=
      match paymentType st with
      | Full => Entered outstanding
      | Partial => paymentAmount st
      end in
    (st, [CallInitiatePayment (invoice row) amountToPay
            (billing_email st)]).

Definition or_default (s default : string) : string :=
  if str_truthy s then s else default.

(** [proceedToPayment] after its [await]. *)
Definition proceedToPayment_resume (o : CallOutcome) (st : Dialog)
  : Dialog * list Effect :=
  match o with
  | Resolved true url _ => (st, [SetLocation url])
  | Resolved false _ message =>
      (set_isProcessing false st,
       [CreateToast "Payment Error"
          (or_default message "Failed to initiate payment")])
  | Thrown message =>
      (set_isProcessing false st,
       [CreateToast "Error"
          (or_default message "Failed to process payment")])
  end.

End Component.

(** Sample data: a plain formatter, a row with a balance of 1000, and two
    partial-payment sessions. *)
Definition fmt_plain (q : Qc) : string :=
  "NGN " ++ NilZero.string_of_int (Z.to_int (Qnum q))
         ++ "/" ++ NilZero.string_of_int (Z.to_int (Zpos (Qden q))).

Definition row1 : Row := mkRow "INV-0001" (Num (Q2Qc (1000 # 1))).

Definition partial_600 : Dialog :=
  mkDialog false Partial (Entered (Q2Qc (600 # 1))) ""
           "a@school.test" "0800".

Definition partial_1500 : Dialog :=
  mkDialog false Partial (Entered (Q2Qc (1500 # 1))) ""
           "a@school.test" "0800".

End FeesPaymentDialog.

(** ** Arrays, sets and sorting as the pages use them *)

Module JsArray.
Import Js.

(** [Set.prototype.add]: a set keeps its elements in insertion order and
    ignores a value it already holds. *)
Definition set_add (s : list string) (x : string) : list string :=
  if existsb (String.eqb x) s then s else s ++ [x].

(** [[...new Set(xs)]] *)
Definition new_Set (xs : list string) : list string :=
  fold_left set_add xs [].

(** [Array.prototype.sort] is stable; it is modelled by a stable insertion
    sort, [le x y] saying that the comparator does not put [y] before [x].
    For a comparator that is a total preorder every stable sort returns
    this list. *)
Section Sort.
Variable A : Type.
Variable le : A -> A -> bool.

Fixpoint insert (x : A) (l : list A) : list A :=
  match l with
  | [] => [x]
  | y :: l' => if le x y then x :: y :: l' else y :: insert x l'
  end.

Definition sort (l : list A) : list A := fold_right insert [] l.

End Sort.

Arguments insert {A} le x l.
Arguments sort {A} le l.

(** [xs.sort()] without a comparator orders strings by their code units. *)
Definition sort_default (xs : list string) : list string :=
  sort String.leb xs.

(** [xs.filter(Boolean)] on strings. *)
Definition filter_Boolean (xs : list string) : list string :=
  filter str_truthy xs.

End JsArray.

(** ** Reports.vue *)

Module Reports.
Import Js JsArray.
Local Open Scope string_scope.

(** A report as the API returns it; a missing [program] is the empty
    string, which the page treats like [null]. *)
Record Report : Type := mkReport {
  name : string;
  academic_year : string;
  assessment_group : string;
  program : string
}.

(** The refs of the page.  [printingReports] is only written by
    [printReport], which is not modelled. *)
Record Page : Type := mkPage {
  isLoading : bool;
  isRefreshing : bool;
  alertMessage : string;
  alertType : string;
  allReports : list Report;
  filterYear : string;
  filterTerm : string;
  filterProgram : string
}.

Definition set_filterYear (v : string) (p : Page) : Page :=
  mkPage (isLoading p) (isRefreshing p) (alertMessage p) (alertType p)
         (allReports p) v (filterTerm p) (filterProgram p).

Definition set_filterTerm (v : string) (p : Page) : Page :=
  mkPage (isLoading p) (isRefreshing p) (alertMessage p) (alertType p)
         (allReports p) (filterYear p) v (filterProgram p).

Definition set_filterProgram (v : string) (p : Page) : Page :=
  mkPage (isLoading p) (isRefreshing p) (alertMessage p) (alertType p)
         (allReports p) (filterYear p) (filterTerm p) v.

Definition set_allReports (l : list Report) (p : Page) : Page :=
  mkPage (isLoading p) (isRefreshing p) (alertMessage p) (alertType p)
         l (filterYear p) (filterTerm p) (filterProgram p).

Definition set_loading (loading refreshing : bool) (p : Page) : Page :=
  mkPage loading refreshing (alertMessage p) (alertType p)
         (allReports p) (filterYear p) (filterTerm p) (filterProgram p).

Definition set_alert (message type : string) (p : Page) : Page :=
  mkPage (isLoading p) (isRefreshing p) message type
         (allReports p) (filterYear p) (filterTerm p) (filterProgram p).

(** A dropdown option; [onClick] is the assignment its closure makes. *)
Record Option : Type := mkOption {
  label : string;
  value : string;
  onClick : Page -> Page
}.

Definition academicYearFilterOptions (p : Page) : list Option :=
  let years := sort_default (new_Set (map academic_year (allReports p))) in
  mkOption "All Years" "" (set_filterYear "")
    :: map (fun year => mkOption year year (set_filterYear year)) years.

Definition termFilterOptions (p : Page) : list Option :=
  let terms := sort_default (new_Set (map assessment_group (allReports p))) in
  mkOption "All Terms" "" (set_filterTerm "")
    :: map (fun term => mkOption term term (set_filterTerm term)) terms.

Definition programFilterOptions (p : Page) : list Option :=
  let programs :=
    sort_default
      (new_Set (filter_Boolean (map program (allReports p)))) in
  mkOption "All Programs" "" (set_filterProgram "")
    :: map (fun program => mkOption program program
                             (set_filterProgram program)) programs.

Section Collation.
(** [String.prototype.localeCompare] belongs to the platform. *)
Variable localeCompare : string -> string -> Z.

(** The comparator of [filteredReports]: academic year descending, then
    term. *)
Definition compareReports (a b : Report) : Z :=
  if negb (String.eqb (academic_year a) (academic_year b))
  then localeCompare (academic_year b) (academic_year a)
  else localeCompare (assessment_group a) (assessment_group b).

Definition filteredReports (p : Page) : list Report :=
  let filtered := allReports p in
  let filtered :=
    if str_truthy (filterYear p)
    then filter (fun r => String.eqb (academic_year r) (filterYear p)) filtered
    else filtered in
  let filtered :=
    if str_truthy (filterTerm p)
    then filter (fun r => String.eqb (assessment_group r) (filterTerm p))
           filtered
    else filtered in
  let filtered :=
    if str_truthy (filterProgram p)
    then filter (fun r => String.eqb (program r) (filterProgram p)) filtered
    else filtered in
  sort (fun a b => (compareReports a b <=? 0)%Z) filtered.

End Collation.

(** One filtering step of [filteredReports]. *)
Definition keep (selection : string) (field : Report -> string)
  (l : list Report) : list Report :=
  if str_truthy selection
  then filter (fun r => String.eqb (field r) selection) l
  else l.

(** [n % m] of JavaScript on integers: the remainder has the sign of [n]. *)
Definition js_rem (n m : Z) : Z := Z.rem n m.

(** [s[i]]: [undefined] outside the array.  Index [-0] is index [0], and
    [Z] has one zero. *)
Definition index (s : list string) (i : Z) : option string :=
  if (i <? 0)%Z then None else nth_error s (Z.to_nat i).

(** [x || y] where [x] is an array element of non-empty strings or
    [undefined]. *)
Definition or_else (x : option string) (y : option string) : option string :=
  match x with
  | Some s => if str_truthy s then x else y
  | None => y
  end.

(** How [n + "..."] starts: [Number::toString] of [n], a double that is an
    integer.  That is the decimal digits of [n] up to [2 ^ 53]; above, it
    is the fewest digits that identify the double, in exponent notation
    from [10 ^ 21] on. *)
Definition number_to_string (n : Z) : string :=
  JsNumber.toString n.

(** [ordinal]; its argument is a double that is an integer, and [%] on
    doubles is exact. *)
Definition ordinal (n : Z) : string :=
  let s := ["th"; "st"; "nd"; "rd"] in
  let v := js_rem n 100 in
  let suffix :=
    or_else (or_else (index s (js_rem (v - 20) 10)) (index s v)) (index s 0) in
  number_to_string n ++ match suffix with Some x => x | None => "" end.

(** The English ordinal suffix, as the rule is usually worded. *)
Definition english_suffix (n : Z) : string :=
  if ((n mod 10 =? 1) && negb (n mod 100 =? 11))%Z then "st"
  else if ((n mod 10 =? 2) && negb (n mod 100 =? 12))%Z then "nd"
  else if ((n mod 10 =? 3) && negb (n mod 100 =? 13))%Z then "rd"
  else "th".

(** The suffix [ordinal] picks, as a function of [v = n % 100]. *)
Definition picked (v : Z) : string :=
  let s := ["th"; "st"; "nd"; "rd"] in
  match or_else
          (or_else (index s (js_rem (v - 20) 10))
             (index s v))
          (index s 0) with
  | Some x => x
  | None => ""
  end.

(** [english_suffix] in terms of [v = n mod 100]. *)
Definition worded (v : Z) : string :=
  if ((v mod 10 =? 1) && negb (v =? 11))%Z then "st"
  else if ((v mod 10 =? 2) && negb (v =? 12))%Z then "nd"
  else if ((v mod 10 =? 3) && negb (v =? 13))%Z then "rd"
  else "th".

(** How the awaited [apiCall] ends for [loadReports]: with the [message]
    of the value it returned, or by throwing an [Error] with a message. *)
Inductive ApiOutcome : Type :=
| Returned (message : option (list Report))
| Threw (message : string).

(** A parsed response body that is an object; a field it does not carry
    is empty. *)
Record Body : Type := mkBody {
  exc_type : string;
  exception : string;
  body_message : option (list Report)
}.

(** What [JSON.parse] gives: [null], an object, or some other value (a
    boolean, a number, a string or an array), which has none of the three
    fields. *)
Inductive Json : Type :=
| JsonNull
| JsonObject (b : Body)
| JsonOther.

(** What [fetch] delivers to [apiCall]; [parsed] is [None] when
    [JSON.parse] throws on the text. *)
Inductive FetchResult : Type :=
| NetworkError (message : string)
| Response (ok : bool) (status : Z) (responseText : string)
           (parsed : option Json).

(** How [apiCall] itself ends: it returns the parsed value, or throws. *)
Inductive ApiResult : Type :=
| Result (result : Json)
| Error (message : string).

Section Engine.
(** The message of the [TypeError] that reading a property of [null]
    throws; its wording belongs to the engine. *)
Variable null_property_error : string.

Definition apiCall (f : FetchResult) : ApiResult :=
  match f with
  | NetworkError m => Error m
  | Response ok status responseText parsed =>
      if negb ok
      then Error ("HTTP " ++ number_to_string status ++ ": " ++ responseText)
      else
        match parsed with
        | None => Error ("Invalid JSON response: " ++ responseText)
        | Some JsonNull => Error null_property_error
        | Some JsonOther => Result JsonOther
        | Some (JsonObject result) =>
            if str_truthy (exc_type result) || str_truthy (exception result)
            then Error (if str_truthy (exception result)
                        then exception result
                        else if str_truthy (exc_type result)
                        then exc_type result
                        else "Server error")
            else Result (JsonObject result)
        end
  end.

End Engine.

(** [result.message] in [loadReports], when [apiCall] returned [result]. *)
Definition outcome_of (r : ApiResult) : ApiOutcome :=
  match r with
  | Result (JsonObject b) => Returned (body_message b)
  | Result JsonOther => Returned None
  | Result JsonNull => Returned None
  | Error m => Threw m
  end.

(** [showAlert]; the timer that empties the message five seconds later is
    not modelled. *)
Definition showAlert (message type : string) (p : Page) : Page :=
  set_alert message type p.

(** [loadReports] up to its [await] ... *)
Definition loadReports_begin (p : Page) : Page :=
  set_loading (Nat.eqb (length (allReports p)) 0) true p.

(** ... and from there on: the [try] body or the [catch] block, then the
    [finally] block. *)
Definition loadReports_settle (o : ApiOutcome) (p : Page) : Page :=
  let p :=
    match o with
    | Returned message =>
        set_allReports (match message with Some l => l | None => [] end) p
    | Threw message =>
        set_allReports []
          (showAlert ("Error loading reports: " ++ message) "error" p)
    end in
  set_loading false false p.

Definition loadReports (o : ApiOutcome) (p : Page) : Page :=
  loadReports_settle o (loadReports_begin p).

Definition clearFilters (p : Page) : Page :=
  set_filterProgram "" (set_filterTerm "" (set_filterYear "" p)).

End Reports.

(** ** IndividualAwards.vue *)

Module IndividualAwards.
Import Js JsArray.
Local Open Scope string_scope.

(** An award as [loadAwards] stores it. *)
Record Award : Type := mkAward {
  name : string;
  title : string;
  date : string;
  description : string;
  category : string;
  year : string;
  file : string
}.

Record Page : Type := mkPage {
  isLoading : bool;
  isRefreshing : bool;
  allAwards : list Award;
  filterYear : string;
  filterCategory : string;
  errorMessage : string
}.

Definition set_filterYear (v : string) (p : Page) : Page :=
  mkPage (isLoading p) (isRefreshing p) (allAwards p) v (filterCategory p)
         (errorMessage p).

Definition set_filterCategory (v : string) (p : Page) : Page :=
  mkPage (isLoading p) (isRefreshing p) (allAwards p) (filterYear p) v
         (errorMessage p).

Record Option : Type := mkOption {
  label : string;
  value : string;
  onClick : Page -> Page
}.

Definition yearOptions (p : Page) : list Option :=
  let years := sort_default (new_Set (map year (allAwards p))) in
  [mkOption "All Years" "" (set_filterYear "")]
    ++ map (fun y => mkOption y y (set_filterYear y)) years.

(** Not a computed property: a constant of the component. *)
Definition categoryOptions : list Option :=
  [ mkOption "All Categories" "" (set_filterCategory "");
    mkOption "Academic" "Academic" (set_filterCategory "Academic");
    mkOption "Sports" "Sports" (set_filterCategory "Sports");
    mkOption "Leadership" "Leadership" (set_filterCategory "Leadership");
    mkOption "Behavioural" "Behavioural" (set_filterCategory "Behavioural") ].

Definition filteredAwards (p : Page) : list Award :=
  filter (fun a =>
            (negb (str_truthy (filterYear p))
               || String.eqb (year a) (filterYear p))
            && (negb (str_truthy (filterCategory p))
                  || String.eqb (category a) (filterCategory p)))
         (allAwards p).

End IndividualAwards.

(** ** What the pages are meant to compute *)

Module PageSpec.
Local Open Scope string_scope.

(** [vals] is the sorted list of the distinct values found in [field]. *)
Definition distinct_sorted (field vals : list string) : Prop :=
  NoDup vals
  /\ Sorted (fun a b => String.leb a b = true) vals
  /\ forall v, In v vals <-> In v field.

(** The values [vs] of an option list are the 'All' option, whose value is
    empty, followed by the sorted distinct values found in [field]. *)
Definition derived_from (field vs : list string) : Prop :=
  exists vals, vs = "" :: vals /\ distinct_sorted field vals.

(** The same, when only the non-empty values of [field] are listed. *)
Definition derived_from_nonempty (field vs : list string) : Prop :=
  exists vals,
    vs = "" :: vals
    /\ NoDup vals
    /\ Sorted (fun a b => String.leb a b = true) vals
    /\ forall v, In v vals <-> v <> "" /\ In v field.

(** A filter with selection [selection] lets a record with field value
    [field] through: an empty selection excludes nothing. *)
Definition selects (selection field : string) : Prop :=
  selection <> "" -> field = selection.

Definition report_matches (p : Reports.Page) (r : Reports.Report) : Prop :=
  selects (Reports.filterYear p) (Reports.academic_year r)
  /\ selects (Reports.filterTerm p) (Reports.assessment_group r)
  /\ selects (Reports.filterProgram p) (Reports.program r).

Definition award_matches (p : IndividualAwards.Page)
  (a : IndividualAwards.Award) : Prop :=
  selects (IndividualAwards.filterYear p) (IndividualAwards.year a)
  /\ selects (IndividualAwards.filterCategory p)
       (IndividualAwards.category a).

End PageSpec.

(** ** Sample data *)

Module Samples.
Local Open Scope string_scope.

Definition report_blank_program : Reports.Report :=
  Reports.mkReport "STR-0001" "2024-2025" "First Term" "".

Definition report_jss1 : Reports.Report :=
  Reports.mkReport "STR-0002" "2024-2025" "Second Term" "JSS 1".

Definition report_jss2 : Reports.Report :=
  Reports.mkReport "STR-0003" "2025-2026" "First Term" "JSS 2".

Definition reports_page (l : list Reports.Report) : Reports.Page :=
  Reports.mkPage false false "" "success" l "" "" "".

Definition awards_page (l : list IndividualAwards.Award)
  : IndividualAwards.Page :=
  IndividualAwards.mkPage false false l "" "" "".

Definition award_sports_2024 : IndividualAwards.Award :=
  IndividualAwards.mkAward "AW-0001" "Best Sprinter" "2024-11-02"
    "100 m" "Sports" "2024-2025" "".

Definition award_academic_2025 : IndividualAwards.Award :=
  IndividualAwards.mkAward "AW-0002" "Top of Class" "2025-11-02"
    "First" "Academic" "2025-2026" "/files/cert.pdf".

(** A collation that orders by code units. *)
Definition localeCompare_units (a b : string) : Z :=
  match String.compare a b with
  | Lt => (-1)%Z
  | Eq => 0%Z
  | Gt => 1%Z
  end.

End Samples.


(** ** Form scripts

    A script handler receives the form [frm] and talks to the server with
    [frappe.call].  The server is a parameter: for each request it gives
    the [r.message] the callback receives.  A handler returns the form
    document as the callbacks leave it and the trace of what was done to
    the outside, in order; a callback is run with the form as the handler
    left it. *)

Module Frappe.
Local Open Scope string_scope.

Inductive Request : Type :=
| Client_get_list (doctype student academic_year : string) (docstatus : Z)
                  (fields : list string) (limit_page_length : Z)
| Client_get (doctype name : string)
| Get_policy_details (student_group : string).

Inductive Event : Type :=
| Called (r : Request)
| Msgprint (message : string)
| Refresh_field (fieldname : string).

Definition is_call (e : Event) : bool :=
  match e with Called _ => true | _ => false end.

Definition is_msgprint (e : Event) : bool :=
  match e with Msgprint _ => true | _ => false end.

(** The remote calls of a trace, in the order they were made. *)
Definition calls (t : list Event) : list Event := filter is_call t.

(** The double-quote character. *)
Definition dquote : string := String (ascii_of_nat 34) EmptyString.

End Frappe.

(** *** School Term Result *)

Module SchoolTermResult.
Import Js Frappe.
Local Open Scope string_scope.

(** Rows of the School Settings child tables. *)
Record ProgramRow : Type := mkProgramRow { program : string }.

Record SkillSetting : Type := mkSkillSetting { skill_name : string }.

(** The School Settings document; a table the server left out is [None]. *)
Record Settings : Type := mkSettings {
  primary_programs : option (list ProgramRow);
  secondary_programs : option (list ProgramRow);
  primary_psychomotor_skills : option (list SkillSetting);
  primary_affective_skills : option (list SkillSetting);
  secondary_psychomotor_skills : option (list SkillSetting);
  secondary_affective_skills : option (list SkillSetting)
}.

Record Enrollment : Type := mkEnrollment { enrolled_program : string }.

(** A row of the form's skill tables, with the field the script writes. *)
Record SkillRow : Type := mkSkillRow { skill : string }.

(** [frm.doc]; an unset field is the empty string. *)
Record Doc : Type := mkDoc {
  student : string;
  academic_term : string;
  academic_year : string;
  assessment_group : string;
  psychomotor_skills : list SkillRow;
  affective_skills : list SkillRow
}.

Record Server : Type := mkServer {
  get_list : Request -> option (list Enrollment);
  get : Request -> option Settings
}.

(** [settings[field]] *)
Definition settings_field (settings : Settings) (field : string)
  : option (list SkillSetting) :=
  if String.eqb field "primary_psychomotor_skills"
  then primary_psychomotor_skills settings
  else if String.eqb field "primary_affective_skills"
  then primary_affective_skills settings
  else if String.eqb field "secondary_psychomotor_skills"
  then secondary_psychomotor_skills settings
  else if String.eqb field "secondary_affective_skills"
  then secondary_affective_skills settings
  else None.

(** [(t || [])] *)
Definition or_empty (A : Type) (t : option (list A)) : list A :=
  match t with Some l => l | None => [] end.

Arguments or_empty {A} t.

(** [xs.includes(x)] *)
Definition includes (xs : list string) (x : string) : bool :=
  existsb (String.eqb x) xs.

(** [frm.clear_table(t)] followed by the [forEach] that adds one child per
    configured skill and sets its [skill]. *)
Definition add_skill (table : list SkillRow) (s : SkillSetting)
  : list SkillRow :=
  table ++ [mkSkillRow (skill_name s)].

Definition add_skills (table : list SkillRow)
  (configured : option (list SkillSetting)) : list SkillRow :=
  match configured with
  | Some (s :: l) => fold_left add_skill (s :: l) table
  | Some [] | None => table
  end.

Definition set_tables (psychomotor affective : list SkillRow) (d : Doc)
  : Doc :=
  mkDoc (student d) (academic_term d) (academic_year d) (assessment_group d)
        psychomotor affective.

(** The three variables [school_level], [psychomotor_field] and
    [affective_field] are assigned together, or all stay [null]. *)
Definition school_level (settings : Settings) (program : string)
  : option (string * string * string) :=
  let primary := map SchoolTermResult.program
                   (or_empty (primary_programs settings)) in
  let secondary := map SchoolTermResult.program
                     (or_empty (secondary_programs settings)) in
  if includes primary program
  then Some ("Primary", "primary_psychomotor_skills",
             "primary_affective_skills")
  else if includes secondary program
  then Some ("Secondary", "secondary_psychomotor_skills",
             "secondary_affective_skills")
  else None.

Definition nat_to_string (n : nat) : string :=
  NilZero.string_of_uint (Nat.to_uint n).

(** The callback of the School Settings request. *)
Definition on_settings (program : string) (message : option Settings)
  (d : Doc) : Doc * list Event :=
  match message with
  | Some settings =>
      match school_level settings program with
      | Some (level, psychomotor_field, affective_field) =>
          let d := set_tables [] (affective_skills d) d in
          let d := set_tables (psychomotor_skills d) [] d in
          let d :=
            set_tables
              (add_skills (psychomotor_skills d)
                 (settings_field settings psychomotor_field))
              (affective_skills d) d in
          let d :=
            set_tables (psychomotor_skills d)
              (add_skills (affective_skills d)
                 (settings_field settings affective_field)) d in
          let skill_count :=
            (length (or_empty (settings_field settings psychomotor_field))
             + length (or_empty (settings_field settings affective_field)))
              %nat in
          (d, [Refresh_field "psychomotor_skills";
               Refresh_field "affective_skills";
               Msgprint ("✓ Skills populated for " ++ level ++ " School ("
                           ++ program ++ ") - " ++ nat_to_string skill_count
                           ++ " skills added")])
      | None =>
          (d, [Msgprint ("✗ Program " ++ dquote ++ program ++ dquote
                           ++ " not found in Primary or Secondary School"
                           ++ " Programs")])
      end
  | None => (d, [Msgprint "Could not fetch School Settings"])
  end.

(** The callback of the Program Enrollment request. *)
Definition on_enrollments (srv : Server)
  (message : option (list Enrollment)) (d : Doc) : Doc * list Event :=
  match message with
  | Some (e :: _) =>
      let program := enrolled_program e in
      let request := Client_get "School Settings" "School Settings" in
      let (d, t) := on_settings program (get srv request) d in
      (d, Called request :: t)
  | Some [] | None =>
      (d, [Msgprint "No Program Enrollment found for this student"])
  end.

Definition populate_skills (srv : Server) (d : Doc) : Doc * list Event :=
  if negb (str_truthy (assessment_group d))
     || negb (str_truthy (student d))
     || negb (str_truthy (academic_year d))
  then (d, [])
  else if negb (str_truthy (assessment_group d))
  then (d, [])
  else
    let request :=
      Client_get_list "Program Enrollment" (student d) (academic_year d) 1
        ["program"] 1 in
    let (d, t) := on_enrollments srv (get_list srv request) d in
    (d, Called request :: t).

End SchoolTermResult.

(** *** Assessment Plan *)

Module AssessmentPlan.
Import Js Frappe.
Local Open Scope string_scope.

(** An entry of the policy's [criteria]. *)
Record Criterion : Type := mkCriterion {
  assessment_criteria : string;
  weightage : number
}.

(** A row of the form's [assessment_criteria] table, with the two fields
    the script writes. *)
Record CriteriaRow : Type := mkCriteriaRow {
  row_assessment_criteria : string;
  row_weightage : number
}.

Record Policy : Type := mkPolicy {
  max_assessment_score : number;
  criteria : list Criterion
}.

Record Doc : Type := mkDoc {
  student_group : string;
  maximum_assessment_score : number;
  assessment_criteria_table : list CriteriaRow
}.

Definition Server : Type := Request -> option Policy.

Definition set_value_maximum_assessment_score (v : number) (d : Doc) : Doc :=
  mkDoc (student_group d) v (assessment_criteria_table d).

Definition clear_table (d : Doc) : Doc :=
  mkDoc (student_group d) (maximum_assessment_score d) [].

(** [frm.add_child('assessment_criteria')] and the two assignments to the
    new row. *)
Definition add_child (d : Doc) (row : Criterion) : Doc :=
  mkDoc (student_group d) (maximum_assessment_score d)
        (assessment_criteria_table d
           ++ [mkCriteriaRow (assessment_criteria row) (weightage row)]).

Definition on_policy (message : option Policy) (d : Doc)
  : Doc * list Event :=
  match message with
  | Some policy =>
      let d :=
        set_value_maximum_assessment_score (max_assessment_score policy) d in
      let d := clear_table d in
      let d := fold_left add_child (criteria policy) d in
      (d, [Refresh_field "assessment_criteria"])
  | None => (d, [])
  end.

(** The [student_group] handler. *)
Definition student_group_changed (srv : Server) (d : Doc)
  : Doc * list Event :=
  if str_truthy (student_group d)
  then
    let request := Get_policy_details (student_group d) in
    let (d, t) := on_policy (srv request) d in
    (d, Called request :: t)
  else (d, []).

End AssessmentPlan.

(** ** What the form scripts are meant to do, and sample data *)

Module FormSpec.
Import Js Frappe.
Local Open Scope string_scope.

(** The three fields [populate_skills] waits for. *)
Definition required_set (d : SchoolTermResult.Doc) : Prop :=
  SchoolTermResult.assessment_group d <> ""
  /\ SchoolTermResult.student d <> ""
  /\ SchoolTermResult.academic_year d <> "".

(** The two lookups of [populate_skills]. *)
Definition enrollment_lookup (d : SchoolTermResult.Doc) : Request :=
  Client_get_list "Program Enrollment" (SchoolTermResult.student d)
    (SchoolTermResult.academic_year d) 1 ["program"] 1.

Definition settings_lookup : Request :=
  Client_get "School Settings" "School Settings".

(** The program of the first enrollment the server returns, if any. *)
Definition enrolled (srv : SchoolTermResult.Server)
  (d : SchoolTermResult.Doc) : option string :=
  match SchoolTermResult.get_list srv (enrollment_lookup d) with
  | Some (e :: _) => Some (SchoolTermResult.enrolled_program e)
  | Some [] | None => None
  end.

Definition in_programs (program : string)
  (rows : option (list SchoolTermResult.ProgramRow)) : Prop :=
  In program
    (map SchoolTermResult.program (SchoolTermResult.or_empty rows)).

(** One row per configured skill, [skill] copied from [skill_name]. *)
Definition rows_of (configured : option (list SchoolTermResult.SkillSetting))
  : list SchoolTermResult.SkillRow :=
  map (fun s => SchoolTermResult.mkSkillRow (SchoolTermResult.skill_name s))
      (SchoolTermResult.or_empty configured).

(** The cases in which [populate_skills] cannot populate. *)
Definition cannot_proceed (srv : SchoolTermResult.Server)
  (d : SchoolTermResult.Doc) : Prop :=
  ~ required_set d
  \/ enrolled srv d = None
  \/ (exists program,
        enrolled srv d = Some program
        /\ (SchoolTermResult.get srv settings_lookup = None
            \/ exists settings,
                SchoolTermResult.get srv settings_lookup = Some settings
                /\ ~ in_programs program
                       (SchoolTermResult.primary_programs settings)
                /\ ~ in_programs program
                       (SchoolTermResult.secondary_programs settings))).

(** What a trace did besides calling the server. *)
Definition shown (t : list Event) : list Event :=
  filter (fun e => negb (is_call e)) t.

Definition skills (names : list string)
  : option (list SchoolTermResult.SkillSetting) :=
  Some (map SchoolTermResult.mkSkillSetting names).

Definition programs (names : list string)
  : option (list SchoolTermResult.ProgramRow) :=
  Some (map SchoolTermResult.mkProgramRow names).

Definition sample_settings : SchoolTermResult.Settings :=
  SchoolTermResult.mkSettings
    (programs ["Primary 1"; "Primary 2"]) (programs ["JSS 1"; "Primary 2"])
    (skills ["Handwriting"; "Drawing"]) (skills ["Punctuality"])
    (skills ["Sports"]) (skills ["Honesty"; "Neatness"; "Leadership"]).

(** A server that knows one student, enrolled in [program]. *)
Definition sample_server (program : string) : SchoolTermResult.Server :=
  SchoolTermResult.mkServer
    (fun r =>
       match r with
       | Client_get_list "Program Enrollment" "STU-001" _ _ _ _ =>
           Some [SchoolTermResult.mkEnrollment program]
       | _ => Some []
       end)
    (fun r =>
       match r with
       | Client_get "School Settings" "School Settings" =>
           Some sample_settings
       | _ => None
       end).

Definition sample_doc (student : string) : SchoolTermResult.Doc :=
  SchoolTermResult.mkDoc student "" "2025-2026" "First Term"
    [SchoolTermResult.mkSkillRow "Old skill"] [].

Definition sample_policy : AssessmentPlan.Policy :=
  AssessmentPlan.mkPolicy (Num (Q2Qc (100 # 1)))
    [AssessmentPlan.mkCriterion "Test" (Num (Q2Qc (30 # 1)));
     AssessmentPlan.mkCriterion "Exam" (Num (Q2Qc (70 # 1)))].

Definition sample_plan : AssessmentPlan.Doc :=
  AssessmentPlan.mkDoc "JSS 1 A" NaN
    [AssessmentPlan.mkCriteriaRow "Stale" NaN].

End FormSpec.

(** ** Object literals used as lookup tables, and strings *)

Module JsObject.
Local Open Scope string_scope.

(** The property names every object inherits from [Object.prototype]. *)
Definition prototype_names : list string :=
  [ "constructor"; "__defineGetter__"; "__defineSetter__"; "hasOwnProperty";
    "__lookupGetter__"; "__lookupSetter__"; "isPrototypeOf";
    "propertyIsEnumerable"; "toString"; "valueOf"; "__proto__";
    "toLocaleString" ].

(** What [obj[key]] finds on an object literal: an own property, a member
    of the prototype (a function or an object, never a string or a
    number), or [undefined]. *)
Inductive Property (A : Type) : Type :=
| Own (a : A)
| Inherited
| Absent.

Arguments Own {A} a.
Arguments Inherited {A}.
Arguments Absent {A}.

Fixpoint own (A : Type) (obj : list (string * A)) (key : string) : option A :=
  match obj with
  | [] => None
  | (k, a) :: rest => if String.eqb key k then Some a else own A rest key
  end.

Arguments own {A} obj key.

Definition get (A : Type) (obj : list (string * A)) (key : string)
  : Property A :=
  match own obj key with
  | Some a => Own a
  | None =>
      if existsb (String.eqb key) prototype_names then Inherited else Absent
  end.

Arguments get {A} obj key.

End JsObject.

Module JsString.
Local Open Scope string_scope.

(** [toLowerCase] on the letters A to Z; other bytes are kept.  Strings are
    sequences of UTF-8 bytes.  The lower-case forms that JavaScript gives
    to characters outside ASCII contain no ASCII letter that is followed
    by another ASCII character, so searching the result for the ASCII
    keywords used below finds the same. *)
Definition lower (c : ascii) : ascii :=
  let n := nat_of_ascii c in
  if (Nat.leb 65 n && Nat.leb n 90)%bool then ascii_of_nat (n + 32) else c.

Fixpoint toLowerCase (s : string) : string :=
  match s with
  | EmptyString => EmptyString
  | String c s' => String (lower c) (toLowerCase s')
  end.

(** [s.includes(sub)] *)
Fixpoint includes (s sub : string) : bool :=
  String.prefix sub s
  || match s with
     | EmptyString => false
     | String _ s' => includes s' sub
     end.

End JsString.

(** ** Fees.vue *)

Module FeesPage.
Import Js JsArray JsObject.
Local Open Scope string_scope.

(** An invoice as the API returns it.  A numeric field is a number, or is
    missing ([None]). *)
Record Invoice : Type := mkInvoice {
  invoice : string;
  program : string;
  status : string;
  due_date : string;
  original_amount : option Qc;
  total_paid : option Qc;
  outstanding_amount : option Qc
}.

(** [field || 0] on a numeric field. *)
Definition field_or_zero (x : option Qc) : Qc :=
  match x with
  | Some q => or_zero (Num q)
  | None => zero
  end.

(** A table row: the invoice ([...invoice]) with the formatted amounts put
    in place of the numeric ones and the numbers kept under [_raw] names. *)
Record Row : Type := mkRow {
  source : Invoice;
  original_amount_text : string;
  original_amount_raw : Qc;
  amount_paid : string;
  amount_paid_raw : Qc;
  amount_outstanding : string;
  amount_outstanding_raw : Qc
}.

Record Response : Type := mkResponse {
  invoices : option (list Invoice);
  print_format : string
}.

(** [tableData.rows] and the refs of the page. *)
Record Page : Type := mkPage {
  rows : list Row;
  printFormat : string;
  currentRow : option Row;
  showPaymentDialog : bool
}.

(** The [statusOrder] object of the sort callback. *)
Definition statusOrder : list (string * Z) :=
  [("Overdue", 0%Z); ("Unpaid", 1%Z); ("Partly Paid", 2%Z); ("Paid", 3%Z)].

(** [statusOrder[status] ?? 99] as a number: [??] replaces only
    [undefined], so an inherited member stays and is not a number
    ([None]). *)
Definition status_value (status : string) : option Z :=
  match get statusOrder status with
  | Own n => Some n
  | Absent => Some 99%Z
  | Inherited => None
  end.

(** [statusA - statusB]; [None] is [NaN]. *)
Definition compare_status (a b : Row) : option Z :=
  match status_value (status (source a)), status_value (status (source b)) with
  | Some x, Some y => Some (x - y)%Z
  | _, _ => None
  end.

(** The sort treats a [NaN] from its comparator as [0]. *)
Definition status_le (a b : Row) : bool :=
  match compare_status a b with
  | Some d => (d <=? 0)%Z
  | None => true
  end.

Section Formatting.
(** [Intl.NumberFormat('en-NG', ...).format] belongs to the platform. *)
Variable formatCurrency : Qc -> string.

(** The callback of [invoices.map]. *)
Definition format_invoice (i : Invoice) : Row :=
  let originalAmount := field_or_zero (original_amount i) in
  let totalPaid := field_or_zero (total_paid i) in
  let outstandingAmount := field_or_zero (outstanding_amount i) in
  mkRow i
    (formatCurrency originalAmount) originalAmount
    (formatCurrency totalPaid) totalPaid
    (formatCurrency outstandingAmount) outstandingAmount.

(** [onSuccess] of [invoicesResource]; [response] may be [undefined]. *)
Definition onSuccess (response : option Response) (p : Page) : Page :=
  let invoices :=
    match response with
    | Some r => match invoices r with Some l => l | None => [] end
    | None => []
    end in
  let invoices := map format_invoice invoices in
  let invoices := sort status_le invoices in
  mkPage invoices
    (match response with
     | Some r => if str_truthy (print_format r) then print_format r
                 else "Standard"
     | None => "Standard"
     end)
    (currentRow p) (showPaymentDialog p).

End Formatting.

Definition badgeColorMap : list (string * string) :=
  [("Paid", "green"); ("Unpaid", "red"); ("Overdue", "red");
   ("Partly Paid", "orange")].

Definition badgeColor (status : string) : Property string :=
  get badgeColorMap status.

Definition getOutstandingColor (amount : number) : string :=
  match amount with
  | Num q =>
      if eqb q zero then "text-green-600 font-semibold"
      else if ltb zero q then "text-red-600 font-semibold"
      else "text-gray-700"
  | NaN => "text-gray-700"
  end.

Definition openPaymentDialog (row : Row) (p : Page) : Page :=
  mkPage (rows p) (printFormat p) (Some row) true.

(** The [row] prop the payment dialog receives. *)
Definition dialog_row (r : Row) : FeesPaymentDialog.Row :=
  FeesPaymentDialog.mkRow (invoice (source r))
    (Num (amount_outstanding_raw r)).

(** [URLSearchParams]: the pairs of the query string, in order. *)
Definition has (params : list (string * string)) (name : string) : bool :=
  existsb (fun kv => String.eqb (fst kv) name) params.

Fixpoint get_param (params : list (string * string)) (name : string)
  : option string :=
  match params with
  | [] => None
  | (k, v) :: rest => if String.eqb k name then Some v else get_param rest name
  end.

(** The description handed to [createToast]: a text, or an inherited
    member of the [errorMessages] object. *)
Inductive Description : Type :=
| Text (s : string)
| NotText.

(** What the hook does at once, or hands to [setTimeout]. *)
Inductive Action : Type :=
| ReloadInvoices
| ReplaceState (url : string).

Inductive Effect : Type :=
| CreateToast (title : string) (description : Description)
| Now (a : Action)
| SetTimeout (ms : Z) (callback : list Action).

Definition errorMessages : list (string * string) :=
  [("verification_failed",
    "Payment verification failed. Please contact support.");
   ("payment_processing_failed",
    "Error processing your payment. Please try again.");
   ("payment_failed", "Payment was declined. Please try again.");
   ("verification_error",
    "An error occurred during verification. Please try again.")].

(** [errorMessages[error] || 'An error occurred during payment.'] *)
Definition error_description (error : string) : Description :=
  match get errorMessages error with
  | Own m => if str_truthy m then Text m
             else Text "An error occurred during payment."
  | Inherited => NotText
  | Absent => Text "An error occurred during payment."
  end.

(** The [onMounted] hook, given the query string of the page. *)
Definition onMounted (params : list (string * string)) : list Effect :=
  (if has params "success"
   then [CreateToast "Payment Successful! 🎉"
           (Text "Your payment has been processed. Fees updated.");
         SetTimeout 1000
           [ReloadInvoices; ReplaceState "/app/student-portal/fees"]]
   else [])
  ++ (if has params "error"
      then
        match get_param params "error" with
        | Some error =>
            [CreateToast "Payment Error" (error_description error);
             Now (ReplaceState "/app/student-portal/fees")]
        | None => []
        end
      else []).

(** The sort rank as the comment in the source words it: Overdue, Unpaid,
    Partly Paid, Paid, and any other status last. *)
Definition rank (status : string) : Z :=
  if String.eqb status "Overdue" then 0
  else if String.eqb status "Unpaid" then 1
  else if String.eqb status "Partly Paid" then 2
  else if String.eqb status "Paid" then 3
  else 99.

(** The status of an invoice is not the name of an inherited member. *)
Definition ranked (i : Invoice) : Prop := ~ In (status i) prototype_names.

(** Sample data. *)
Definition fmt_units (q : Qc) : string :=
  "NGN " ++ NilZero.string_of_int (Z.to_int (Qnum q)).

Definition inv_paid : Invoice :=
  mkInvoice "INV-1" "JSS 1" "Paid" "2025-01-10"
    (Some (Q2Qc (500 # 1))) (Some (Q2Qc (500 # 1))) None.

Definition inv_overdue : Invoice :=
  mkInvoice "INV-2" "JSS 1" "Overdue" "2025-02-10"
    (Some (Q2Qc (800 # 1))) None (Some (Q2Qc (800 # 1))).

Definition inv_partly : Invoice :=
  mkInvoice "INV-3" "JSS 1" "Partly Paid" "2025-03-10"
    (Some (Q2Qc (900 # 1))) (Some (Q2Qc (300 # 1))) (Some (Q2Qc (600 # 1))).

Definition empty_page : Page := mkPage [] "Standard" None false.

End FeesPage.

(** ** Reports.vue: active filters and print formats *)

Module ReportsPrint.
Import Js JsString Reports.
Local Open Scope string_scope.

(** [hasFilters], as the condition it is used for. *)
Definition hasFilters (p : Page) : bool :=
  str_truthy (filterYear p) || str_truthy (filterTerm p)
  || str_truthy (filterProgram p).

Definition secondaryKeywords : list string :=
  ["jss"; "ss"; "secondary"; "high school"; "senior"; "junior secondary"].

(** A missing program is the empty string. *)
Definition isSecondaryProgram (program : string) : bool :=
  if negb (str_truthy program) then false
  else
    let programLower := toLowerCase program in
    existsb (fun keyword => includes programLower keyword) secondaryKeywords.

(** [result.message] of [get_school_print_format]. *)
Record PrintFormats : Type := mkPrintFormats {
  primary_print_format : string;
  secondary_print_format : string
}.

(** How the [apiCall] for the print formats ends. *)
Inductive FormatsOutcome : Type :=
| FormatsReturned (message : option PrintFormats)
| FormatsThrew (message : string).

Definition or_Standard (s : string) : string :=
  if str_truthy s then s else "Standard".

Definition getPrintFormatForProgram (o : FormatsOutcome) (program : string)
  : string :=
  match o with
  | FormatsReturned message =>
      let primaryFormat :=
        match message with
        | Some m => or_Standard (primary_print_format m)
        | None => "Standard"
        end in
      let secondaryFormat :=
        match message with
        | Some m => or_Standard (secondary_print_format m)
        | None => "Standard"
        end in
      let isSecondary := isSecondaryProgram program in
      if isSecondary then secondaryFormat else primaryFormat
  | FormatsThrew _ => "Standard"
  end.

End ReportsPrint.

(** ** IndividualAwards.vue: loading and clearing *)

Module AwardsLoading.
Import Js.
Local Open Scope string_scope.

(** An award as the API returns it. *)
Record RawAward : Type := mkRawAward {
  name : string;
  certificate_title : string;
  certificate_date : string;
  description : string;
  certificate_type : string;
  academic_year : string;
  certificate_file : string
}.

(** How the awaited [call] ends. *)
Inductive CallOutcome : Type :=
| Resolved (res : option (list RawAward))
| Rejected (message : string).

Definition set_loading (loading refreshing : bool)
  (p : IndividualAwards.Page) : IndividualAwards.Page :=
  IndividualAwards.mkPage loading refreshing (IndividualAwards.allAwards p)
    (IndividualAwards.filterYear p) (IndividualAwards.filterCategory p)
    (IndividualAwards.errorMessage p).

Definition set_errorMessage (m : string) (p : IndividualAwards.Page)
  : IndividualAwards.Page :=
  IndividualAwards.mkPage (IndividualAwards.isLoading p)
    (IndividualAwards.isRefreshing p) (IndividualAwards.allAwards p)
    (IndividualAwards.filterYear p) (IndividualAwards.filterCategory p) m.

Definition set_allAwards (l : list IndividualAwards.Award)
  (p : IndividualAwards.Page) : IndividualAwards.Page :=
  IndividualAwards.mkPage (IndividualAwards.isLoading p)
    (IndividualAwards.isRefreshing p) l
    (IndividualAwards.filterYear p) (IndividualAwards.filterCategory p)
    (IndividualAwards.errorMessage p).

(** The callback of [(res || []).map]. *)
Definition to_award (a : RawAward) : IndividualAwards.Award :=
  IndividualAwards.mkAward (name a) (certificate_title a)
    (certificate_date a) (description a) (certificate_type a)
    (academic_year a) (certificate_file a).

(** [loadAwards] up to its [await] ... *)
Definition loadAwards_begin (p : IndividualAwards.Page)
  : IndividualAwards.Page :=
  set_errorMessage "" (set_loading true true p).

(** ... and from there on. *)
Definition loadAwards_settle (o : CallOutcome) (p : IndividualAwards.Page)
  : IndividualAwards.Page :=
  let p :=
    match o with
    | Resolved res =>
        set_allAwards
          (map to_award (match res with Some l => l | None => [] end)) p
    | Rejected message =>
        set_errorMessage
          (if str_truthy message then message
           else "Failed to load awards. Please try again.") p
    end in
  set_loading false false p.

Definition loadAwards (o : CallOutcome) (p : IndividualAwards.Page)
  : IndividualAwards.Page :=
  loadAwards_settle o (loadAwards_begin p).

Definition clearFilters (p : IndividualAwards.Page) : IndividualAwards.Page :=
  IndividualAwards.set_filterCategory ""
    (IndividualAwards.set_filterYear "" p).

End AwardsLoading.

(** ** Form documents that differ in their child tables only *)

Module FormSpecMore.
Local Open Scope string_scope.

Definition same_header (d d' : SchoolTermResult.Doc) : Prop :=
  SchoolTermResult.student d' = SchoolTermResult.student d
  /\ SchoolTermResult.academic_term d' = SchoolTermResult.academic_term d
  /\ SchoolTermResult.academic_year d' = SchoolTermResult.academic_year d
  /\ SchoolTermResult.assessment_group d'
     = SchoolTermResult.assessment_group d.

End FormSpecMore.

(** * Properties *)

(** ** Facts about the number model *)

Module JsFacts.
Import Js.

Lemma ltb_lt (x y : Qc) : ltb x y = true <-> (x < y)%Qc.
Proof.
  unfold ltb. rewrite Qclt_alt.
  destruct (Qccompare x y); split; intro H; congruence.
Qed.

Lemma leb_le (x y : Qc) : leb x y = true <-> (x <= y)%Qc.
Proof.
  unfold leb. rewrite Qcle_alt.
  destruct (Qccompare x y); split; intro H; congruence.
Qed.

Lemma eqb_eq (x y : Qc) : eqb x y = true <-> x = y.
Proof.
  unfold eqb. rewrite Qceq_alt.
  destruct (Qccompare x y); split; intro H; congruence.
Qed.

Lemma leb_false_lt (x y : Qc) : leb x y = false <-> (y < x)%Qc.
Proof.
  split; intro H.
  - apply Qcnot_le_lt. intro Hle. apply leb_le in Hle. congruence.
  - destruct (leb x y) eqn:E; [|reflexivity].
    apply leb_le in E. exfalso. exact (Qclt_not_le _ _ H E).
Qed.

Lemma ltb_false_le (x y : Qc) : ltb x y = false <-> (y <= x)%Qc.
Proof.
  split; intro H.
  - apply Qcnot_lt_le. intro Hlt. apply ltb_lt in Hlt. congruence.
  - destruct (ltb x y) eqn:E; [|reflexivity].
    apply ltb_lt in E. exfalso. exact (Qcle_not_lt _ _ H E).
Qed.

Lemma or_zero_Num (q : Qc) : or_zero (Num q) = q.
Proof.
  unfold or_zero. destruct (eqb q zero) eqn:E; [|reflexivity].
  apply eqb_eq in E. congruence.
Qed.

End JsFacts.

(** ** The payment dialog *)

Module PaymentDialogProps.
Import Js JsFacts FeesPaymentDialog.
Local Open Scope string_scope.

Example validate_600 :
  fst (validatePaymentAmount fmt_plain row1 partial_600) = true.
Proof. reflexivity. Qed.

Example validate_1500 :
  validatePaymentAmount fmt_plain row1 partial_1500
  = (false, set_paymentError
              "Amount cannot exceed outstanding balance (NGN 1000/1)"
              partial_1500).
Proof. reflexivity. Qed.

Example remaining_1500 :
  getRemainingAfter fmt_plain row1 partial_1500 = "NGN 0/1".
Proof. reflexivity. Qed.

Example remaining_600 :
  getRemainingAfter fmt_plain row1 partial_600 = "NGN 400/1".
Proof. reflexivity. Qed.

Section Component.
Variable formatCurrency : Qc -> string.
Variable row : Row.

Local Abbreviation o := (outstanding row).
Local Abbreviation validate := (validatePaymentAmount formatCurrency row).
Local Abbreviation valid := (isFormValid formatCurrency row).

(** The three ways [validatePaymentAmount] can go, by the entered
    amount. *)
Lemma validate_missing (st : Dialog) :
  missing (paymentAmount st) ->
  validate st
  = (false, set_paymentError msg_not_positive (set_paymentError "" st)).
Proof.
  intros [H | H]; unfold validatePaymentAmount; simpl; rewrite H;
    reflexivity.
Qed.

Lemma validate_nonpositive (st : Dialog) (q : Qc) :
  paymentAmount st = Entered q -> (q <= zero)%Qc ->
  validate st
  = (false, set_paymentError msg_not_positive (set_paymentError "" st)).
Proof.
  intros H Hq. unfold validatePaymentAmount. simpl. rewrite H. simpl.
  apply leb_le in Hq. rewrite Hq, orb_true_r. reflexivity.
Qed.

Lemma positive_truthy (q : Qc) :
  (zero < q)%Qc -> truthy (Num q) = true /\ leb q zero = false.
Proof.
  intro Hq. split.
  - simpl. apply negb_true_iff. destruct (eqb q zero) eqn:E; [|reflexivity].
    apply eqb_eq in E. subst q. exfalso.
    exact (Qclt_not_le _ _ Hq (Qcle_refl _)).
  - now apply leb_false_lt.
Qed.

Lemma validate_exceeds (st : Dialog) (q : Qc) :
  paymentAmount st = Entered q -> (zero < q)%Qc -> (o < q)%Qc ->
  validate st
  = (false,
     set_paymentError (msg_exceeds formatCurrency row)
       (set_paymentError "" st)).
Proof.
  intros H Hq Ho. unfold validatePaymentAmount. simpl. rewrite H. simpl.
  destruct (positive_truthy q Hq) as [Ht Hl]. simpl in Ht.
  rewrite Ht, Hl. simpl. apply ltb_lt in Ho. rewrite Ho. reflexivity.
Qed.

Lemma validate_within (st : Dialog) (q : Qc) :
  paymentAmount st = Entered q -> (zero < q)%Qc -> (q <= o)%Qc ->
  validate st = (true, set_paymentError "" st).
Proof.
  intros H Hq Ho. unfold validatePaymentAmount. simpl. rewrite H. simpl.
  destruct (positive_truthy q Hq) as [Ht Hl]. simpl in Ht.
  rewrite Ht, Hl. simpl. apply ltb_false_le in Ho. rewrite Ho.
  reflexivity.
Qed.

(** Every amount falls under one of the four lemmas above. *)
Lemma amount_cases (a : Amount) :
  missing a
  \/ (exists q, a = Entered q /\ (q <= zero)%Qc)
  \/ (exists q, a = Entered q /\ (zero < q)%Qc /\ (o < q)%Qc)
  \/ (exists q, a = Entered q /\ (zero < q)%Qc /\ (q <= o)%Qc).
Proof.
  destruct a as [| | q].
  - left. now left.
  - left. now right.
  - right. destruct (Qclt_le_dec zero q) as [Hq | Hq].
    + destruct (Qclt_le_dec o q) as [Ho | Ho].
      * right. left. now exists q.
      * right. right. now exists q.
    + left. now exists q.
Qed.

Lemma validate_true_within (st : Dialog) :
  fst (validate st) = true ->
  exists q, paymentAmount st = Entered q /\ (zero < q)%Qc /\ (q <= o)%Qc.
Proof.
  destruct (amount_cases (paymentAmount st))
    as [Hm | [(q & Ha & Hq) | [(q & Ha & Hq & Ho) | (q & Ha & Hq & Ho)]]].
  - rewrite (validate_missing st Hm). discriminate.
  - rewrite (validate_nonpositive st q Ha Hq). discriminate.
  - rewrite (validate_exceeds st q Ha Hq Ho). discriminate.
  - intros _. now exists q.
Qed.


(** [paymentAmount.value || 0] is the entered number, and [0] when nothing
    was entered. *)
Lemma paying_to_number (st : Dialog) :
  paying st = to_number (paymentAmount st).
Proof.
  unfold paying. destruct (paymentAmount st) as [| | q]; try reflexivity.
  simpl. destruct (eqb q zero) eqn:E; simpl; [|reflexivity].
  apply eqb_eq in E. congruence.
Qed.

Lemma Qcmax_zero (x : Qc) :
  (if ltb zero x then x else zero) = Qcmax x zero /\ (zero <= Qcmax x zero)%Qc.
Proof.
  unfold Qcmax. destruct (ltb zero x) eqn:E.
  - apply ltb_lt in E. pose proof E as E'. apply leb_false_lt in E'.
    rewrite E'. split; [reflexivity | now apply Qclt_le_weak].
  - apply ltb_false_le in E. pose proof E as E'. apply leb_le in E'.
    rewrite E'. split; [reflexivity | apply Qcle_refl].
Qed.

(** The balance the dialog computes with is the row's raw amount, and [0]
    when that is not a number. *)
Lemma outstanding_raw :
  o = match amount_outstanding_raw row with Num q => q | NaN => zero end.
Proof.
  unfold outstanding, parseFloat.
  destruct (amount_outstanding_raw row) as [| q]; [reflexivity|].
  apply or_zero_Num.
Qed.

(** C9.  For every outstanding balance [o], the row's raw amount, and
    every entered amount [a] (also one larger than [o], and [0] standing
    for a missing one), [getRemainingAfter] returns the currency format of
    [max (o - a) 0], where [-] is the subtraction of doubles; that value is
    never negative. *)
Theorem getRemainingAfter_spec (st : Dialog) :
  let balance :=
    match amount_outstanding_raw row with Num q => q | NaN => zero end in
  let a :=
    match paymentAmount st with Entered q => q | Null | EmptyText => zero end in
  getRemainingAfter formatCurrency row st
  = formatCurrency (Qcmax (JsNumber.sub balance a) zero)
  /\ (zero <= Qcmax (JsNumber.sub balance a) zero)%Qc.
Proof.
  intros balance a. unfold getRemainingAfter.
  rewrite paying_to_number, outstanding_raw. fold balance.
  change (to_number (paymentAmount st)) with a.
  destruct (Qcmax_zero (JsNumber.sub balance a)) as [H1 H2].
  rewrite H1. split; [reflexivity | exact H2].
Qed.

(** What a valid form looks like: both contact fields are filled in and,
    in Partial mode, a positive amount within the balance was entered.
    Only the error message can differ in the state afterwards. *)
Lemma isFormValid_true (st : Dialog) :
  fst (valid st) = true ->
  billing_email st <> "" /\ billing_mobile_number st <> ""
  /\ (paymentType st = Partial ->
      exists q, paymentAmount st = Entered q
                /\ (zero < q)%Qc /\ (q <= o)%Qc)
  /\ (snd (valid st) = st \/ snd (valid st) = set_paymentError "" st).
Proof.
  unfold isFormValid. destruct (paymentType st) eqn:Ht.
  - simpl. intro H. apply andb_true_iff in H. destruct H as [He Hm].
    repeat split.
    + destruct (billing_email st); [discriminate | discriminate].
    + destruct (billing_mobile_number st); [discriminate | discriminate].
    + discriminate.
    + now left.
  - destruct (str_truthy (billing_email st)
              && str_truthy (billing_mobile_number st)
              && amount_truthy (paymentAmount st)
              && ltb zero (to_number (paymentAmount st))) eqn:Hc;
      [|discriminate].
    repeat (apply andb_true_iff in Hc; destruct Hc as [Hc ?]).
    intro Hv.
    apply validate_true_within in Hv. destruct Hv as (q & Ha & Hq & Ho).
    repeat split.
    + destruct (billing_email st); [discriminate | discriminate].
    + destruct (billing_mobile_number st); [discriminate | discriminate].
    + intros _. now exists q.
    + right. now rewrite (validate_within st q Ha Hq Ho).
Qed.


End Component.



Example remaining_rounds :
  getRemainingAfter fmt_plain
    (mkRow "INV-0002" (Num (Q2Qc (7605453870721925 # 281474976710656))))
    (mkDialog false Partial
       (Entered (Q2Qc (5623870034678907 # 562949953421312))) "" "" "")
  = "NGN 599189856672809/35184372088832".
Proof. vm_compute. reflexivity. Qed.

(** C9 at a balance of 1000: paying 600 leaves 400, and paying 1500
    leaves nothing rather than a negative balance. *)
Lemma getRemainingAfter_spec_witness :
  getRemainingAfter fmt_plain row1 partial_600 = "NGN 400/1"
  /\ getRemainingAfter fmt_plain row1 partial_1500 = "NGN 0/1".
Proof.
  split.
  - exact (proj1 (getRemainingAfter_spec fmt_plain row1 partial_600)).
  - exact (proj1 (getRemainingAfter_spec fmt_plain row1 partial_1500)).
Defined.

End PaymentDialogProps.

(** ** Sets and sorting *)

Module JsArrayFacts.
Import Js JsArray.

Lemma existsb_eqb_In (x : string) (s : list string) :
  existsb (String.eqb x) s = true <-> In x s.
Proof.
  rewrite existsb_exists. split.
  - intros (y & Hy & E). apply String.eqb_eq in E. now subst y.
  - intro H. exists x. split; [exact H | apply String.eqb_refl].
Qed.

Lemma set_add_In (s : list string) (x y : string) :
  In y (set_add s x) <-> In y s \/ y = x.
Proof.
  unfold set_add. destruct (existsb (String.eqb x) s) eqn:E.
  - apply existsb_eqb_In in E. split; [now left|].
    intros [H | H]; [exact H | now subst y].
  - rewrite in_app_iff. simpl. intuition.
Qed.

Lemma set_add_NoDup (s : list string) (x : string) :
  NoDup s -> NoDup (set_add s x).
Proof.
  intro Hs. unfold set_add. destruct (existsb (String.eqb x) s) eqn:E.
  - exact Hs.
  - assert (Hx : ~ In x s).
    { intro H. apply existsb_eqb_In in H. congruence. }
    apply NoDup_app; [exact Hs | repeat constructor; intros [] | ].
    intros a Ha [Hax | []]. subst a. contradiction.
Qed.

(** The set built from an array holds the array's values, each once. *)
Lemma fold_set_add_In (xs acc : list string) (y : string) :
  In y (fold_left set_add xs acc) <-> In y acc \/ In y xs.
Proof.
  revert acc. induction xs as [| x xs IH]; intro acc; simpl.
  - intuition.
  - rewrite IH, set_add_In. intuition.
Qed.

Lemma fold_set_add_NoDup (xs acc : list string) :
  NoDup acc -> NoDup (fold_left set_add xs acc).
Proof.
  revert acc. induction xs as [| x xs IH]; intros acc Hacc; simpl.
  - exact Hacc.
  - apply IH. now apply set_add_NoDup.
Qed.

Lemma new_Set_In (xs : list string) (y : string) :
  In y (new_Set xs) <-> In y xs.
Proof.
  unfold new_Set. rewrite fold_set_add_In. simpl. intuition.
Qed.

Lemma new_Set_NoDup (xs : list string) : NoDup (new_Set xs).
Proof. apply fold_set_add_NoDup. constructor. Qed.

Section Sort.
Variable A : Type.
Variable le : A -> A -> bool.

Lemma insert_Permutation (x : A) (l : list A) :
  Permutation (insert le x l) (x :: l).
Proof.
  induction l as [| y l IH]; simpl.
  - apply Permutation_refl.
  - destruct (le x y).
    + apply Permutation_refl.
    + apply perm_trans with (y :: x :: l).
      * now apply perm_skip.
      * apply perm_swap.
Qed.

(** Sorting rearranges: nothing is added, dropped or repeated. *)
Lemma sort_Permutation (l : list A) : Permutation (sort le l) l.
Proof.
  induction l as [| x l IH]; simpl.
  - apply perm_nil.
  - apply perm_trans with (x :: sort le l).
    + apply insert_Permutation.
    + now apply perm_skip.
Qed.

Hypothesis le_total : forall a b, le a b = true \/ le b a = true.

Local Abbreviation R := (fun a b => le a b = true).

Lemma insert_HdRel (a x : A) (l : list A) :
  le a x = true -> HdRel R a l -> HdRel R a (insert le x l).
Proof.
  intros Hax Hl. destruct l as [| y l]; simpl.
  - now constructor.
  - destruct (le x y); constructor; [exact Hax|].
    now inversion Hl.
Qed.

Lemma insert_Sorted (x : A) (l : list A) :
  Sorted R l -> Sorted R (insert le x l).
Proof.
  induction l as [| y l IH]; intro Hs; simpl.
  - repeat constructor.
  - destruct (le x y) eqn:E.
    + constructor; [exact Hs | now constructor].
    + inversion Hs as [| ? ? Hs' Hhd]; subst.
      constructor; [now apply IH|].
      apply insert_HdRel; [|exact Hhd].
      destruct (le_total x y) as [H | H]; [congruence | exact H].
Qed.

Lemma sort_Sorted (l : list A) : Sorted R (sort le l).
Proof.
  induction l as [| x l IH]; simpl.
  - constructor.
  - now apply insert_Sorted.
Qed.

End Sort.

Lemma sort_default_In (xs : list string) (y : string) :
  In y (sort_default xs) <-> In y xs.
Proof.
  unfold sort_default. split; intro H.
  - eapply Permutation_in; [apply sort_Permutation | exact H].
  - eapply Permutation_in; [apply Permutation_sym, sort_Permutation | exact H].
Qed.

Lemma sort_default_NoDup (xs : list string) :
  NoDup xs -> NoDup (sort_default xs).
Proof.
  intro H. eapply Permutation_NoDup; [|exact H].
  apply Permutation_sym, sort_Permutation.
Qed.

Lemma sort_default_Sorted (xs : list string) :
  Sorted (fun a b => String.leb a b = true) (sort_default xs).
Proof. apply sort_Sorted. exact String.leb_total. Qed.

(** Distinct-value extraction: [[...new Set(xs)].sort()]. *)
Lemma distinct_values (xs : list string) :
  PageSpec.distinct_sorted xs (sort_default (new_Set xs)).
Proof.
  split; [|split].
  - apply sort_default_NoDup, new_Set_NoDup.
  - apply sort_default_Sorted.
  - intro v. rewrite sort_default_In. apply new_Set_In.
Qed.

End JsArrayFacts.

(** ** The Reports and Awards pages *)

Module PagesProps.
Import Js JsArray JsArrayFacts PageSpec Samples.
Local Open Scope string_scope.

Example year_options_sample :
  map Reports.value
    (Reports.academicYearFilterOptions
       (reports_page [report_jss2; report_jss1; report_blank_program]))
  = [""; "2024-2025"; "2025-2026"].
Proof. reflexivity. Qed.

Example program_options_sample :
  map Reports.value
    (Reports.programFilterOptions
       (reports_page [report_jss2; report_jss1; report_blank_program]))
  = [""; "JSS 1"; "JSS 2"].
Proof. reflexivity. Qed.

Example filtered_sample :
  Reports.filteredReports localeCompare_units
    (Reports.set_filterYear "2024-2025"
       (reports_page [report_jss2; report_jss1; report_blank_program]))
  = [report_blank_program; report_jss1].
Proof. reflexivity. Qed.

Lemma str_truthy_nonempty (s : string) : str_truthy s = true <-> s <> "".
Proof. destruct s; simpl; split; congruence. Qed.

Lemma filter_Boolean_In (xs : list string) (v : string) :
  In v (filter_Boolean xs) <-> v <> "" /\ In v xs.
Proof.
  unfold filter_Boolean. rewrite filter_In, str_truthy_nonempty. tauto.
Qed.

Lemma map_value_reports (f : string -> Reports.Page -> Reports.Page)
  (vals : list string) :
  map Reports.value (map (fun v => Reports.mkOption v v (f v)) vals) = vals.
Proof.
  induction vals as [| v vals IH]; simpl; [reflexivity | now rewrite IH].
Qed.

Lemma map_value_awards
  (f : string -> IndividualAwards.Page -> IndividualAwards.Page)
  (vals : list string) :
  map IndividualAwards.value
    (map (fun v => IndividualAwards.mkOption v v (f v)) vals) = vals.
Proof.
  induction vals as [| v vals IH]; simpl; [reflexivity | now rewrite IH].
Qed.

(** C3, amended.  The values of the Reports page's year and term options
    and of the Awards page's year options are the 'All' option followed by
    the sorted distinct values of the field in the fetched records.  The
    class options of the Reports page list the distinct non-empty programs
    only.  The category options of the Awards page are a fixed list that
    does not depend on the fetched awards. *)
Theorem filter_options_derived (p : Reports.Page)
  (q : IndividualAwards.Page) :
  derived_from (map Reports.academic_year (Reports.allReports p))
    (map Reports.value (Reports.academicYearFilterOptions p))
  /\ derived_from (map Reports.assessment_group (Reports.allReports p))
       (map Reports.value (Reports.termFilterOptions p))
  /\ derived_from (map IndividualAwards.year (IndividualAwards.allAwards q))
       (map IndividualAwards.value (IndividualAwards.yearOptions q))
  /\ derived_from_nonempty (map Reports.program (Reports.allReports p))
       (map Reports.value (Reports.programFilterOptions p))
  /\ map IndividualAwards.value IndividualAwards.categoryOptions
     = [""; "Academic"; "Sports"; "Leadership"; "Behavioural"].
Proof.
  repeat split.
  - eexists. split; [|apply distinct_values].
    unfold Reports.academicYearFilterOptions. simpl.
    now rewrite map_value_reports.
  - eexists. split; [|apply distinct_values].
    unfold Reports.termFilterOptions. simpl.
    now rewrite map_value_reports.
  - eexists. split; [|apply distinct_values].
    unfold IndividualAwards.yearOptions. simpl.
    now rewrite map_value_awards.
  - exists (sort_default
              (new_Set (filter_Boolean
                          (map Reports.program (Reports.allReports p))))).
    destruct (distinct_values
                (filter_Boolean (map Reports.program (Reports.allReports p))))
      as (Hnd & Hs & Hin).
    split; [|split; [exact Hnd | split; [exact Hs|]]].
    + unfold Reports.programFilterOptions. simpl.
      now rewrite map_value_reports.
    + intro v. rewrite Hin. apply filter_Boolean_In.
Qed.

(** C3 as stated fails for two of the five filters: with no award fetched
    the category filter still offers 'Academic', and a report without a
    program adds no class option for its (empty) program value. *)
Lemma filter_options_not_all_derived :
  ~ derived_from
      (map IndividualAwards.category
         (IndividualAwards.allAwards (awards_page [])))
      (map IndividualAwards.value IndividualAwards.categoryOptions)
  /\ ~ derived_from
        (map Reports.program
           (Reports.allReports (reports_page [report_blank_program])))
        (map Reports.value
           (Reports.programFilterOptions
              (reports_page [report_blank_program]))).
Proof.
  split.
  - intros (vals & Hv & _ & _ & Hin). simpl in Hv, Hin.
    injection Hv as Hv. subst vals.
    apply (Hin "Academic"). simpl. now left.
  - intros (vals & Hv & _ & _ & Hin). simpl in Hin.
    vm_compute in Hv. injection Hv as Hv. subst vals.
    apply (Hin ""). now left.
Qed.

Lemma keep_In (selection : string) (field : Reports.Report -> string)
  (l : list Reports.Report) (r : Reports.Report) :
  In r (Reports.keep selection field l) <-> In r l /\ selects selection (field r).
Proof.
  unfold Reports.keep, selects. destruct (str_truthy selection) eqn:E.
  - rewrite filter_In, String.eqb_eq. apply str_truthy_nonempty in E. tauto.
  - assert (selection = "") by (destruct selection; [reflexivity|discriminate]).
    subst selection. split; [intro H; split; [exact H | congruence] | tauto].
Qed.

Lemma filteredReports_unfold (localeCompare : string -> string -> Z)
  (p : Reports.Page) :
  Reports.filteredReports localeCompare p
  = sort (fun a b => (Reports.compareReports localeCompare a b <=? 0)%Z)
      (Reports.keep (Reports.filterProgram p) Reports.program
         (Reports.keep (Reports.filterTerm p) Reports.assessment_group
            (Reports.keep (Reports.filterYear p) Reports.academic_year
               (Reports.allReports p)))).
Proof. reflexivity. Qed.

Lemma keep_NoDup (selection : string) (field : Reports.Report -> string)
  (l : list Reports.Report) :
  NoDup l -> NoDup (Reports.keep selection field l).
Proof.
  intro H. unfold Reports.keep. destruct (str_truthy selection); [|exact H].
  now apply NoDup_filter.
Qed.

(** C4.  A record is in [filteredReports] exactly when it was fetched and
    every filter with a non-empty selection agrees with its field; the same
    holds for [filteredAwards].  Filtering repeats no record that was
    fetched once. *)
Theorem filtered_lists_exact (localeCompare : string -> string -> Z)
  (p : Reports.Page) (q : IndividualAwards.Page) :
  (forall r,
      In r (Reports.filteredReports localeCompare p)
      <-> In r (Reports.allReports p) /\ report_matches p r)
  /\ (forall a,
         In a (IndividualAwards.filteredAwards q)
         <-> In a (IndividualAwards.allAwards q) /\ award_matches q a)
  /\ (NoDup (Reports.allReports p) ->
      NoDup (Reports.filteredReports localeCompare p))
  /\ (NoDup (IndividualAwards.allAwards q) ->
      NoDup (IndividualAwards.filteredAwards q)).
Proof.
  split; [|split; [|split]].
  - intro r. rewrite filteredReports_unfold. unfold report_matches.
    split.
    + intro H.
      apply (Permutation_in _ (sort_Permutation _ _ _)) in H.
      rewrite !keep_In in H. tauto.
    + intro H.
      apply (Permutation_in _ (Permutation_sym (sort_Permutation _ _ _))).
      rewrite !keep_In. tauto.
  - intro a. unfold IndividualAwards.filteredAwards, award_matches, selects.
    rewrite filter_In, andb_true_iff, !orb_true_iff, !negb_true_iff,
      !String.eqb_eq.
    assert (Hf : forall s, str_truthy s = false <-> s = "")
      by (intros [|c s]; simpl; split; congruence).
    rewrite !Hf.
    split.
    + intros (Hin & [Hy | Hy] & [Hc | Hc]); repeat split; auto;
        intro; congruence.
    + intros (Hin & Hy & Hc). split; [exact Hin|]. split.
      * destruct (string_dec (IndividualAwards.filterYear q) "");
          [now left | right; auto].
      * destruct (string_dec (IndividualAwards.filterCategory q) "");
          [now left | right; auto].
  - intro H. rewrite filteredReports_unfold.
    eapply Permutation_NoDup;
      [apply Permutation_sym, sort_Permutation|].
    now repeat apply keep_NoDup.
  - intro H. now apply NoDup_filter.
Qed.

Example filtered_awards_sample :
  IndividualAwards.filteredAwards
    (IndividualAwards.set_filterCategory "Sports"
       (awards_page [award_academic_2025; award_sports_2024]))
  = [award_sports_2024].
Proof. reflexivity. Qed.

(** C4 at concrete pages with distinct records. *)
Lemma filtered_lists_exact_witness :
  NoDup (Reports.allReports (reports_page [report_jss2; report_jss1]))
  /\ NoDup (IndividualAwards.allAwards
              (awards_page [award_academic_2025; award_sports_2024]))
  /\ NoDup (Reports.filteredReports localeCompare_units
              (reports_page [report_jss2; report_jss1]))
  /\ NoDup (IndividualAwards.filteredAwards
              (awards_page [award_academic_2025; award_sports_2024])).
Proof.
  assert (H1 : NoDup (Reports.allReports
                        (reports_page [report_jss2; report_jss1]))).
  { repeat constructor; simpl; intuition discriminate. }
  assert (H2 : NoDup (IndividualAwards.allAwards
                        (awards_page
                           [award_academic_2025; award_sports_2024]))).
  { repeat constructor; simpl; intuition discriminate. }
  split; [exact H1 | split; [exact H2|]].
  destruct (filtered_lists_exact localeCompare_units
              (reports_page [report_jss2; report_jss1])
              (awards_page [award_academic_2025; award_sports_2024]))
    as (_ & _ & Hr & Ha).
  split; [exact (Hr H1) | exact (Ha H2)].
Defined.

(** *** Loading reports *)

Example apiCall_http_error :
  Reports.outcome_of
    (Reports.apiCall "null has no properties"
       (Reports.Response false 500 "Internal Server Error" None))
  = Reports.Threw "HTTP 500: Internal Server Error".
Proof. reflexivity. Qed.

(** Each way a fetch can fail makes [apiCall] throw. *)
Lemma apiCall_throws (e : string) (f : Reports.FetchResult) :
  match f with
  | Reports.NetworkError _ => True
  | Reports.Response ok _ _ parsed =>
      ok = false \/ parsed = None \/ parsed = Some Reports.JsonNull
      \/ exists b, parsed = Some (Reports.JsonObject b)
                   /\ (Reports.exc_type b <> "" \/ Reports.exception b <> "")
  end ->
  exists m, Reports.outcome_of (Reports.apiCall e f) = Reports.Threw m.
Proof.
  destruct f as [m | ok status text parsed]; simpl.
  - intros _. now exists m.
  - intros [H | [H | [H | (b & H & Hb)]]]; subst.
    + eexists. reflexivity.
    + destruct ok; eexists; reflexivity.
    + destruct ok; eexists; reflexivity.
    + destruct ok; simpl; [|eexists; reflexivity].
      assert (E : str_truthy (Reports.exc_type b)
                  || str_truthy (Reports.exception b) = true).
      { apply orb_true_iff.
        destruct Hb as [Hb | Hb]; apply str_truthy_nonempty in Hb; auto. }
      rewrite E. eexists. reflexivity.
Qed.

(** C5 as stated fails: a failed refresh empties the stored report list. *)
Lemma loadReports_error_mutates_list :
  Reports.allReports
    (Reports.loadReports (Reports.Threw "Failed to fetch")
       (reports_page [report_jss1]))
  <> Reports.allReports (reports_page [report_jss1]).
Proof. simpl. discriminate. Qed.

(** C5, amended.  When the fetch fails, [loadReports] shows the error as
    an alert of type 'error', empties the stored report list and leaves the
    filter selections as they were; whether the fetch fails or succeeds,
    both loading flags end up false. *)
Theorem loadReports_error_path (message : string) (p : Reports.Page)
  (o : Reports.ApiOutcome) :
  Reports.loadReports (Reports.Threw message) p
  = Reports.mkPage false false ("Error loading reports: " ++ message) "error"
      [] (Reports.filterYear p) (Reports.filterTerm p)
      (Reports.filterProgram p)
  /\ Reports.isLoading (Reports.loadReports o p) = false
  /\ Reports.isRefreshing (Reports.loadReports o p) = false.
Proof.
  split; [reflexivity|]. destruct o; split; reflexivity.
Qed.

(** A successful fetch stores what the server returned. *)
Lemma loadReports_success (l : list Reports.Report) (p : Reports.Page) :
  Reports.allReports (Reports.loadReports (Reports.Returned (Some l)) p) = l.
Proof. reflexivity. Qed.

(** *** Ordinals *)

Example ordinal_samples :
  map Reports.ordinal [0; 1; 2; 3; 4; 11; 12; 13; 21; 22; 23; 101; 111; 112]%Z
  = ["0th"; "1st"; "2nd"; "3rd"; "4th"; "11th"; "12th"; "13th"; "21st";
     "22nd"; "23rd"; "101st"; "111th"; "112th"].
Proof. reflexivity. Qed.

Lemma picked_table :
  forallb (fun k => String.eqb (Reports.picked (Z.of_nat k)) (Reports.worded (Z.of_nat k)))
    (seq 0 100) = true.
Proof. vm_compute. reflexivity. Qed.

Lemma picked_worded (v : Z) : (0 <= v < 100)%Z -> Reports.picked v = Reports.worded v.
Proof.
  intro Hv. pose proof picked_table as T.
  rewrite forallb_forall in T.
  specialize (T (Z.to_nat v)).
  rewrite Z2Nat.id in T by lia.
  apply String.eqb_eq, T, in_seq. lia.
Qed.

Example ordinal_large_samples :
  map Reports.ordinal
    [9007199254740991; 9007199254740992; 144115188075856032;
     1000000000000000000000; 123456789012345683968]%Z
  = ["9007199254740991st"; "9007199254740992nd"; "144115188075856030nd";
     "1e+21th"; "123456789012345680000th"].
Proof. vm_compute. reflexivity. Qed.

(** The suffix is the English one for every non-negative [n]; what comes
    before it is [Number::toString] of [n]. *)
Lemma ordinal_suffix (n : Z) :
  (0 <= n)%Z ->
  Reports.ordinal n
  = Reports.number_to_string n ++ Reports.english_suffix n.
Proof.
  intro Hn. unfold Reports.ordinal. f_equal.
  change (Reports.picked (Reports.js_rem n 100) = Reports.english_suffix n).
  unfold Reports.js_rem. rewrite Z.rem_mod_nonneg by lia.
  rewrite picked_worded by (apply Z.mod_pos_bound; lia).
  unfold Reports.worded, Reports.english_suffix.
  replace ((n mod 100) mod 10)%Z with (n mod 10)%Z; [reflexivity|].
  rewrite (Z.mod_eq n 100) by lia.
  replace (n - 100 * (n / 100))%Z with (n + (- 10 * (n / 100)) * 10)%Z by lia.
  now rewrite Z_mod_plus_full.
Qed.

(** Up to [2 ^ 53 - 1], [Number::toString] gives the decimal digits. *)
Lemma number_to_string_safe (n : Z) :
  (0 <= n <= 2 ^ 53 - 1)%Z ->
  Reports.number_to_string n = JsNumber.decimal n.
Proof.
  intro Hn. unfold Reports.number_to_string, JsNumber.toString.
  assert (H1 : (n <? 0)%Z = false) by (apply Z.ltb_ge; lia).
  assert (H2 : (n <? 2 ^ 53)%Z = true) by (apply Z.ltb_lt; lia).
  now rewrite H1, H2.
Qed.

(** C8 as stated fails beyond the safe integers: both numbers below are
    doubles, so [ordinal] can receive them, but what it returns does not
    start with their decimal digits. *)
Lemma ordinal_beyond_safe_integers :
  (JsNumber.is_double (10 ^ 21) = true
   /\ Reports.ordinal (10 ^ 21) = "1e+21th"
   /\ Reports.ordinal (10 ^ 21)
      <> JsNumber.decimal (10 ^ 21) ++ Reports.english_suffix (10 ^ 21))
  /\ (JsNumber.is_double 144115188075856032 = true
      /\ Reports.ordinal 144115188075856032 = "144115188075856030nd"
      /\ Reports.ordinal 144115188075856032
         <> JsNumber.decimal 144115188075856032
              ++ Reports.english_suffix 144115188075856032).
Proof.
  split; (split; [vm_compute; reflexivity|]);
    (split; [vm_compute; reflexivity|]); vm_compute; discriminate.
Qed.

(** C8, amended.  For every non-negative integer [n] up to [2 ^ 53 - 1]
    (the safe integers), [ordinal n] is the decimal digits of [n] followed
    by 'st' when [n] ends in 1 but not in 11, 'nd' when it ends in 2 but not
    in 12, 'rd' when it ends in 3 but not in 13, and 'th' otherwise. *)
Theorem ordinal_english (n : Z) :
  (0 <= n <= 2 ^ 53 - 1)%Z ->
  Reports.ordinal n = JsNumber.decimal n ++ Reports.english_suffix n.
Proof.
  intro Hn. rewrite ordinal_suffix by lia.
  now rewrite number_to_string_safe.
Qed.

(** C8 at 112, which ends in 2 and in 12. *)
Lemma ordinal_english_witness :
  (0 <= 112 <= 2 ^ 53 - 1)%Z /\ Reports.ordinal 112 = "112th".
Proof.
  assert (H : (0 <= 112 <= 2 ^ 53 - 1)%Z) by (split; discriminate).
  split; [exact H|]. exact (ordinal_english 112 H).
Defined.

End PagesProps.

(** ** The form scripts *)

Module FormProps.
Import Js Frappe FormSpec.
Local Open Scope string_scope.

Example populate_primary :
  SchoolTermResult.populate_skills (sample_server "Primary 1")
    (sample_doc "STU-001")
  = (SchoolTermResult.mkDoc "STU-001" "" "2025-2026" "First Term"
       [SchoolTermResult.mkSkillRow "Handwriting";
        SchoolTermResult.mkSkillRow "Drawing"]
       [SchoolTermResult.mkSkillRow "Punctuality"],
     [Called (enrollment_lookup (sample_doc "STU-001"));
      Called settings_lookup;
      Refresh_field "psychomotor_skills";
      Refresh_field "affective_skills";
      Msgprint
        "✓ Skills populated for Primary School (Primary 1) - 3 skills added"]).
Proof. reflexivity. Qed.

Example populate_unknown_student :
  SchoolTermResult.populate_skills (sample_server "Primary 1")
    (sample_doc "STU-999")
  = (sample_doc "STU-999",
     [Called (enrollment_lookup (sample_doc "STU-999"));
      Msgprint "No Program Enrollment found for this student"]).
Proof. reflexivity. Qed.

(** *** School Term Result *)

Lemma truthy_false_empty (s : string) : str_truthy s = false <-> s = "".
Proof. destruct s; simpl; split; congruence. Qed.

Lemma truthy_true_nonempty (s : string) : str_truthy s = true <-> s <> "".
Proof. destruct s; simpl; split; congruence. Qed.

(** The guard at the top of [populate_skills]. *)
Lemma guard_false_iff (d : SchoolTermResult.Doc) :
  negb (str_truthy (SchoolTermResult.assessment_group d))
  || negb (str_truthy (SchoolTermResult.student d))
  || negb (str_truthy (SchoolTermResult.academic_year d)) = false
  <-> required_set d.
Proof.
  unfold required_set.
  rewrite !orb_false_iff, !negb_false_iff, !truthy_true_nonempty. tauto.
Qed.

Lemma populate_skills_unset (srv : SchoolTermResult.Server)
  (d : SchoolTermResult.Doc) :
  ~ required_set d -> SchoolTermResult.populate_skills srv d = (d, []).
Proof.
  intro H. unfold SchoolTermResult.populate_skills.
  destruct (negb (str_truthy (SchoolTermResult.assessment_group d))
            || negb (str_truthy (SchoolTermResult.student d))
            || negb (str_truthy (SchoolTermResult.academic_year d))) eqn:E.
  - reflexivity.
  - apply guard_false_iff in E. contradiction.
Qed.

Lemma populate_skills_set (srv : SchoolTermResult.Server)
  (d : SchoolTermResult.Doc) :
  required_set d ->
  SchoolTermResult.populate_skills srv d
  = (fst (SchoolTermResult.on_enrollments srv
            (SchoolTermResult.get_list srv (enrollment_lookup d)) d),
     Called (enrollment_lookup d)
       :: snd (SchoolTermResult.on_enrollments srv
                 (SchoolTermResult.get_list srv (enrollment_lookup d)) d)).
Proof.
  intro H. unfold SchoolTermResult.populate_skills.
  pose proof H as G. apply guard_false_iff in G. rewrite G.
  destruct H as (Ha & _ & _). apply truthy_true_nonempty in Ha.
  rewrite Ha. simpl. fold (enrollment_lookup d).
  destruct (SchoolTermResult.on_enrollments srv
              (SchoolTermResult.get_list srv (enrollment_lookup d)) d).
  reflexivity.
Qed.

Lemma on_enrollments_none (srv : SchoolTermResult.Server)
  (d : SchoolTermResult.Doc) :
  enrolled srv d = None ->
  SchoolTermResult.on_enrollments srv
    (SchoolTermResult.get_list srv (enrollment_lookup d)) d
  = (d, [Msgprint "No Program Enrollment found for this student"]).
Proof.
  unfold enrolled.
  destruct (SchoolTermResult.get_list srv (enrollment_lookup d))
    as [[| e l] |]; simpl; congruence.
Qed.

Lemma on_enrollments_some (srv : SchoolTermResult.Server)
  (d : SchoolTermResult.Doc) (program : string) :
  enrolled srv d = Some program ->
  SchoolTermResult.on_enrollments srv
    (SchoolTermResult.get_list srv (enrollment_lookup d)) d
  = (fst (SchoolTermResult.on_settings program
            (SchoolTermResult.get srv settings_lookup) d),
     Called settings_lookup
       :: snd (SchoolTermResult.on_settings program
                 (SchoolTermResult.get srv settings_lookup) d)).
Proof.
  unfold enrolled.
  destruct (SchoolTermResult.get_list srv (enrollment_lookup d))
    as [[| e l] |]; simpl; try congruence.
  intro H. injection H as H. subst program. fold settings_lookup.
  destruct (SchoolTermResult.on_settings (SchoolTermResult.enrolled_program e)
              (SchoolTermResult.get srv settings_lookup) d).
  reflexivity.
Qed.

Lemma includes_In (xs : list string) (x : string) :
  SchoolTermResult.includes xs x = true <-> In x xs.
Proof.
  unfold SchoolTermResult.includes. rewrite existsb_exists. split.
  - intros (y & Hy & E). apply String.eqb_eq in E. now subst y.
  - intro H. exists x. split; [exact H | apply String.eqb_refl].
Qed.

Lemma includes_not_In (xs : list string) (x : string) :
  SchoolTermResult.includes xs x = false <-> ~ In x xs.
Proof.
  rewrite <- includes_In.
  destruct (SchoolTermResult.includes xs x); split; congruence.
Qed.

(** How the school level is decided: primary first, then secondary. *)
Lemma school_level_primary (settings : SchoolTermResult.Settings)
  (program : string) :
  in_programs program (SchoolTermResult.primary_programs settings) ->
  SchoolTermResult.school_level settings program
  = Some ("Primary", "primary_psychomotor_skills",
          "primary_affective_skills").
Proof.
  intro H. unfold SchoolTermResult.school_level.
  apply includes_In in H. now rewrite H.
Qed.

Lemma school_level_secondary (settings : SchoolTermResult.Settings)
  (program : string) :
  ~ in_programs program (SchoolTermResult.primary_programs settings) ->
  in_programs program (SchoolTermResult.secondary_programs settings) ->
  SchoolTermResult.school_level settings program
  = Some ("Secondary", "secondary_psychomotor_skills",
          "secondary_affective_skills").
Proof.
  intros H1 H2. unfold SchoolTermResult.school_level.
  apply includes_not_In in H1. apply includes_In in H2.
  now rewrite H1, H2.
Qed.

Lemma school_level_none (settings : SchoolTermResult.Settings)
  (program : string) :
  ~ in_programs program (SchoolTermResult.primary_programs settings) ->
  ~ in_programs program (SchoolTermResult.secondary_programs settings) ->
  SchoolTermResult.school_level settings program = None.
Proof.
  intros H1 H2. unfold SchoolTermResult.school_level.
  apply includes_not_In in H1. apply includes_not_In in H2.
  now rewrite H1, H2.
Qed.

Lemma fold_add_skill (l : list SchoolTermResult.SkillSetting)
  (table : list SchoolTermResult.SkillRow) :
  fold_left SchoolTermResult.add_skill l table
  = (table ++ map (fun s => SchoolTermResult.mkSkillRow
                              (SchoolTermResult.skill_name s)) l)%list.
Proof.
  revert table. induction l as [| s l IH]; intro table; simpl.
  - now rewrite app_nil_r.
  - rewrite IH. unfold SchoolTermResult.add_skill.
    now rewrite <- app_assoc.
Qed.

(** Adding to a cleared table gives one row per configured skill. *)
Lemma add_skills_cleared
  (configured : option (list SchoolTermResult.SkillSetting)) :
  SchoolTermResult.add_skills [] configured = rows_of configured.
Proof.
  unfold SchoolTermResult.add_skills, rows_of.
  destruct configured as [[| s l] |]; try reflexivity.
  now rewrite fold_add_skill.
Qed.

Lemma on_settings_level (program level pf af : string)
  (settings : SchoolTermResult.Settings) (d : SchoolTermResult.Doc) :
  SchoolTermResult.school_level settings program = Some (level, pf, af) ->
  let r := SchoolTermResult.on_settings program (Some settings) d in
  SchoolTermResult.psychomotor_skills (fst r)
  = rows_of (SchoolTermResult.settings_field settings pf)
  /\ SchoolTermResult.affective_skills (fst r)
     = rows_of (SchoolTermResult.settings_field settings af)
  /\ calls (snd r) = [].
Proof.
  intro H. simpl. rewrite H. simpl. rewrite !add_skills_cleared.
  repeat split.
Qed.

Lemma on_settings_calls (program : string)
  (message : option SchoolTermResult.Settings) (d : SchoolTermResult.Doc) :
  calls (snd (SchoolTermResult.on_settings program message d)) = [].
Proof.
  destruct message as [settings |]; simpl; [|reflexivity].
  destruct (SchoolTermResult.school_level settings program)
    as [[[level pf] af] |]; reflexivity.
Qed.

(** C6 as stated fails in two ways.  With all three fields set but no
    enrollment on the server, only one lookup is made.  And a program that
    is listed as primary and as secondary gets the primary skills, not the
    secondary ones. *)
Lemma populate_skills_not_always_two_lookups :
  (required_set (sample_doc "STU-999")
   /\ length (calls (snd (SchoolTermResult.populate_skills
                            (sample_server "Primary 1")
                            (sample_doc "STU-999")))) <> 2%nat)
  /\ (required_set (sample_doc "STU-001")
      /\ in_programs "Primary 2"
           (SchoolTermResult.secondary_programs sample_settings)
      /\ SchoolTermResult.psychomotor_skills
           (fst (SchoolTermResult.populate_skills
                   (sample_server "Primary 2") (sample_doc "STU-001")))
         <> rows_of
              (SchoolTermResult.secondary_psychomotor_skills
                 sample_settings)).
Proof.
  split; [split | split; [|split]].
  - repeat split; discriminate.
  - simpl. discriminate.
  - repeat split; discriminate.
  - unfold in_programs. simpl. right. now left.
  - simpl. discriminate.
Qed.

(** C6, amended.  With student, academic year and assessment group set,
    [populate_skills] first looks up the student's submitted Program
    Enrollment for the year.  Without an enrollment that is its only
    lookup.  With one, it then fetches School Settings, which makes exactly
    two lookups in that order; when the settings arrive and the program is
    in the primary programs, or is not but is in the secondary programs,
    both skill tables become one row per skill configured for that level,
    [skill] copied from [skill_name]. *)
Theorem populate_skills_lookups_and_rows (srv : SchoolTermResult.Server)
  (d : SchoolTermResult.Doc) :
  required_set d ->
  let r := SchoolTermResult.populate_skills srv d in
  (enrolled srv d = None -> calls (snd r) = [Called (enrollment_lookup d)])
  /\ (forall program,
        enrolled srv d = Some program ->
        calls (snd r)
        = [Called (enrollment_lookup d); Called settings_lookup]
        /\ forall settings,
            SchoolTermResult.get srv settings_lookup = Some settings ->
            (in_programs program
               (SchoolTermResult.primary_programs settings) ->
             SchoolTermResult.psychomotor_skills (fst r)
             = rows_of (SchoolTermResult.primary_psychomotor_skills settings)
             /\ SchoolTermResult.affective_skills (fst r)
                = rows_of
                    (SchoolTermResult.primary_affective_skills settings))
            /\ (~ in_programs program
                    (SchoolTermResult.primary_programs settings) ->
                in_programs program
                  (SchoolTermResult.secondary_programs settings) ->
                SchoolTermResult.psychomotor_skills (fst r)
                = rows_of
                    (SchoolTermResult.secondary_psychomotor_skills settings)
                /\ SchoolTermResult.affective_skills (fst r)
                   = rows_of
                       (SchoolTermResult.secondary_affective_skills
                          settings))).
Proof.
  intros Hset r. subst r. rewrite (populate_skills_set srv d Hset).
  split.
  - intro Hn. rewrite (on_enrollments_none srv d Hn). reflexivity.
  - intros program Hp. rewrite (on_enrollments_some srv d program Hp).
    split.
    + simpl. now rewrite on_settings_calls.
    + intros settings Hs. rewrite Hs. split.
      * intro Hin.
        destruct (on_settings_level program _ _ _ settings d
                    (school_level_primary settings program Hin))
          as (H1 & H2 & _).
        split; [exact H1 | exact H2].
      * intros Hnot Hin.
        destruct (on_settings_level program _ _ _ settings d
                    (school_level_secondary settings program Hnot Hin))
          as (H1 & H2 & _).
        split; [exact H1 | exact H2].
Qed.

(** C6 at the sample server, for a student enrolled in a program that is
    listed as secondary only. *)
Lemma populate_skills_lookups_and_rows_witness :
  required_set (sample_doc "STU-001")
  /\ calls (snd (SchoolTermResult.populate_skills (sample_server "JSS 1")
                   (sample_doc "STU-001")))
     = [Called (enrollment_lookup (sample_doc "STU-001"));
        Called settings_lookup]
  /\ SchoolTermResult.psychomotor_skills
       (fst (SchoolTermResult.populate_skills (sample_server "JSS 1")
               (sample_doc "STU-001")))
     = [SchoolTermResult.mkSkillRow "Sports"].
Proof.
  assert (Hset : required_set (sample_doc "STU-001"))
    by (repeat split; discriminate).
  destruct (populate_skills_lookups_and_rows (sample_server "JSS 1")
              (sample_doc "STU-001") Hset) as (_ & H).
  destruct (H "JSS 1" eq_refl) as (Hcalls & Hrows).
  destruct (Hrows sample_settings eq_refl) as (_ & Hsec).
  split; [exact Hset | split; [exact Hcalls|]].
  apply Hsec.
  - unfold in_programs. simpl. intros [H' | [H' | []]]; discriminate.
  - unfold in_programs. simpl. now left.
Defined.

(** C10.  Whenever population cannot proceed, [populate_skills] leaves the
    document, and so both skill tables, as it was.  With a required field
    unset it does nothing at all, so no remote call is made; otherwise all
    it shows is one message. *)
Theorem populate_skills_frame (srv : SchoolTermResult.Server)
  (d : SchoolTermResult.Doc) :
  cannot_proceed srv d ->
  let r := SchoolTermResult.populate_skills srv d in
  fst r = d
  /\ (~ required_set d -> snd r = [])
  /\ (required_set d -> exists m, shown (snd r) = [Msgprint m]).
Proof.
  intros H r. subst r.
  assert (Hdec : required_set d \/ ~ required_set d).
  { unfold required_set.
    destruct (string_dec (SchoolTermResult.assessment_group d) "");
      destruct (string_dec (SchoolTermResult.student d) "");
      destruct (string_dec (SchoolTermResult.academic_year d) ""); tauto. }
  destruct Hdec as [Hset | Hunset].
  - rewrite (populate_skills_set srv d Hset).
    destruct H as [H | [H | (program & Hp & H)]]; [contradiction | |].
    + rewrite (on_enrollments_none srv d H). simpl.
      split; [reflexivity | split; [contradiction|]].
      intros _. eexists. reflexivity.
    + rewrite (on_enrollments_some srv d program Hp).
      destruct H as [H | (settings & Hs & H1 & H2)].
      * rewrite H. simpl.
        split; [reflexivity | split; [contradiction|]].
        intros _. eexists. reflexivity.
      * rewrite Hs. simpl.
        rewrite (school_level_none settings program H1 H2). simpl.
        split; [reflexivity | split; [contradiction|]].
        intros _. eexists. reflexivity.
  - rewrite (populate_skills_unset srv d Hunset). simpl.
    split; [reflexivity | split; [reflexivity | contradiction]].
Qed.

(** C10 at a student the sample server has no enrollment for. *)
Lemma populate_skills_frame_witness :
  cannot_proceed (sample_server "Primary 1") (sample_doc "STU-999")
  /\ fst (SchoolTermResult.populate_skills (sample_server "Primary 1")
            (sample_doc "STU-999"))
     = sample_doc "STU-999".
Proof.
  assert (H : cannot_proceed (sample_server "Primary 1")
                (sample_doc "STU-999")) by (right; left; reflexivity).
  split; [exact H|].
  apply (populate_skills_frame (sample_server "Primary 1")
           (sample_doc "STU-999") H).
Defined.

(** *** Assessment Plan *)

Lemma fold_add_child (l : list AssessmentPlan.Criterion)
  (d : AssessmentPlan.Doc) :
  fold_left AssessmentPlan.add_child l d
  = AssessmentPlan.mkDoc (AssessmentPlan.student_group d)
      (AssessmentPlan.maximum_assessment_score d)
      (AssessmentPlan.assessment_criteria_table d
         ++ map (fun c => AssessmentPlan.mkCriteriaRow
                            (AssessmentPlan.assessment_criteria c)
                            (AssessmentPlan.weightage c)) l)%list.
Proof.
  revert d. induction l as [| c l IH]; intro d; simpl.
  - rewrite app_nil_r. now destruct d.
  - rewrite IH. simpl. now rewrite <- app_assoc.
Qed.

Example plan_sample :
  AssessmentPlan.student_group_changed (fun _ => Some sample_policy)
    sample_plan
  = (AssessmentPlan.mkDoc "JSS 1 A" (Num (Q2Qc (100 # 1)))
       [AssessmentPlan.mkCriteriaRow "Test" (Num (Q2Qc (30 # 1)));
        AssessmentPlan.mkCriteriaRow "Exam" (Num (Q2Qc (70 # 1)))],
     [Called (Get_policy_details "JSS 1 A");
      Refresh_field "assessment_criteria"]).
Proof. reflexivity. Qed.

(** C7.  When [student_group] is set and the lookup returns a policy, the
    form's maximum score becomes the policy's and the criteria table is
    replaced by one row per entry of the policy's criteria, in order, with
    the entry's [assessment_criteria] and [weightage]; one lookup is made.
    When [student_group] is empty, no lookup is made and the form is
    unchanged. *)
Theorem student_group_changed_spec (srv : AssessmentPlan.Server)
  (d : AssessmentPlan.Doc) :
  (AssessmentPlan.student_group d = "" ->
   AssessmentPlan.student_group_changed srv d = (d, []))
  /\ (AssessmentPlan.student_group d <> "" ->
      forall policy,
        srv (Get_policy_details (AssessmentPlan.student_group d))
        = Some policy ->
        AssessmentPlan.student_group_changed srv d
        = (AssessmentPlan.mkDoc (AssessmentPlan.student_group d)
             (AssessmentPlan.max_assessment_score policy)
             (map (fun c => AssessmentPlan.mkCriteriaRow
                              (AssessmentPlan.assessment_criteria c)
                              (AssessmentPlan.weightage c))
                  (AssessmentPlan.criteria policy)),
           [Called (Get_policy_details (AssessmentPlan.student_group d));
            Refresh_field "assessment_criteria"])).
Proof.
  unfold AssessmentPlan.student_group_changed. split.
  - intro H. rewrite H. reflexivity.
  - intros H policy Hp. apply truthy_true_nonempty in H. rewrite H, Hp.
    simpl. rewrite fold_add_child. reflexivity.
Qed.

(** C7 at the sample plan, whose student group is set. *)
Lemma student_group_changed_spec_witness :
  AssessmentPlan.student_group sample_plan <> ""
  /\ AssessmentPlan.assessment_criteria_table
       (fst (AssessmentPlan.student_group_changed
               (fun _ => Some sample_policy) sample_plan))
     = [AssessmentPlan.mkCriteriaRow "Test" (Num (Q2Qc (30 # 1)));
        AssessmentPlan.mkCriteriaRow "Exam" (Num (Q2Qc (70 # 1)))].
Proof.
  assert (H : AssessmentPlan.student_group sample_plan <> "")
    by discriminate.
  split; [exact H|].
  destruct (student_group_changed_spec (fun _ => Some sample_policy)
              sample_plan) as (_ & Hset).
  rewrite (Hset H sample_policy eq_refl). reflexivity.
Defined.

End FormProps.

(** ** Rounding to a double keeps the sign of a non-negative number *)

Module JsNumberFacts.
Import Js JsNumber.

Lemma round_half_even_nonneg (n d : Z) :
  (0 <= n)%Z -> (0 < d)%Z -> (0 <= round_half_even n d)%Z.
Proof.
  intros Hn Hd. unfold round_half_even.
  assert (H : (0 <= n / d)%Z) by (apply Z.div_pos; lia).
  destruct (2 * (n mod d) <? d)%Z; [exact H|].
  destruct (d <? 2 * (n mod d))%Z; [lia|].
  destruct (Z.even (n / d)); lia.
Qed.

Lemma nearest_nonneg (n d : Z) :
  (0 < n)%Z -> (0 < d)%Z -> (0 <= fst (nearest n d))%Z.
Proof.
  intros Hn Hd. unfold nearest.
  destruct (n =? 0)%Z; [simpl; lia|].
  destruct (0 <=? Z.max (floor_log2 n d - 52) (-1074))%Z eqn:E; simpl.
  - apply round_half_even_nonneg; [lia|].
    apply Z.leb_le in E. apply Z.mul_pos_pos; [exact Hd|].
    now apply Z.pow_pos_nonneg.
  - apply round_half_even_nonneg; [|exact Hd].
    apply Z.leb_gt in E. apply Z.mul_nonneg_nonneg; [lia|].
    apply Z.pow_nonneg. lia.
Qed.

Lemma value_nonneg (me : Z * Z) : (0 <= fst me)%Z -> (0 <= value me)%Q.
Proof.
  destruct me as [m e]. simpl. intro H. unfold value.
  destruct (0 <=? e)%Z eqn:E; unfold Qle; simpl.
  - apply Z.leb_le in E.
    assert (0 <= 2 ^ e)%Z by (apply Z.pow_nonneg; lia). nia.
  - lia.
Qed.

(** The double nearest to a non-negative number is not negative. *)
Lemma to_double_nonneg (q : Qc) : (zero <= q)%Qc -> (zero <= to_double q)%Qc.
Proof.
  intro H.
  assert (H0 : (0 <= Qnum (this q))%Z).
  { unfold Qcle, Qle in H. simpl in H. lia. }
  unfold Qcle, to_double. cbn [this Q2Qc].
  apply Qle_trans with (y := 0%Q); [unfold zero; simpl; apply Qle_refl|].
  rewrite Qred_correct.
  destruct (Qnum (this q)) as [| n | n].
  - apply Qle_refl.
  - apply value_nonneg, nearest_nonneg; reflexivity.
  - exfalso. lia.
Qed.

End JsNumberFacts.

(** ** More on the payment dialog *)

Module PaymentDialogMore.
Import Js JsFacts FeesPaymentDialog PaymentDialogProps.
Local Open Scope string_scope.

Section Component.
Variable formatCurrency : Qc -> string.
Variable row : Row.

Local Abbreviation o := (outstanding row).
Local Abbreviation valid := (isFormValid formatCurrency row).
Local Abbreviation proceed := (proceedToPayment formatCurrency row).

Lemma nonempty_truthy (s : string) : s <> "" -> str_truthy s = true.
Proof. destruct s; simpl; congruence. Qed.

(** Filled-in contact fields and, in Partial mode, an amount within the
    balance make the form valid. *)
Lemma isFormValid_intro (st : Dialog) :
  billing_email st <> "" -> billing_mobile_number st <> "" ->
  (paymentType st = Partial ->
   exists q, paymentAmount st = Entered q /\ (zero < q)%Qc /\ (q <= o)%Qc) ->
  fst (valid st) = true.
Proof.
  intros He Hm Hp. unfold isFormValid.
  rewrite (nonempty_truthy _ He), (nonempty_truthy _ Hm).
  destruct (paymentType st).
  - reflexivity.
  - destruct (Hp eq_refl) as (q & Ha & Hq & Ho).
    assert (Ht : amount_truthy (paymentAmount st) = true).
    { rewrite Ha. exact (proj1 (positive_truthy q Hq)). }
    assert (Hl : ltb zero (to_number (paymentAmount st)) = true).
    { rewrite Ha. now apply ltb_lt. }
    rewrite Ht, Hl. simpl.
    now rewrite (validate_within formatCurrency row st q Ha Hq Ho).
Qed.


(** X2.  When the form is not valid, [proceedToPayment] only shows the
    validation toast: it issues no payment call and does not start
    processing. *)
Theorem proceedToPayment_invalid (st : Dialog) :
  fst (valid st) = false ->
  snd (proceed st)
  = [CreateToast "Validation Error"
       "Please fill in all required fields correctly"]
  /\ isProcessing (fst (proceed st)) = isProcessing st
  /\ forall invoice amount email,
       ~ In (CallInitiatePayment invoice amount email) (snd (proceed st)).
Proof.
  intro H. unfold proceedToPayment.
  assert (Hp : isProcessing (snd (valid st)) = isProcessing st).
  { unfold isFormValid. destruct (paymentType st); [reflexivity|].
    destruct (str_truthy (billing_email st)
              && str_truthy (billing_mobile_number st)
              && amount_truthy (paymentAmount st)
              && ltb zero (to_number (paymentAmount st))); [|reflexivity].
    unfold validatePaymentAmount.
    destruct (negb (amount_truthy (paymentAmount (set_paymentError "" st)))
              || leb (to_number (paymentAmount (set_paymentError "" st)))
                   zero); [reflexivity|].
    destruct (ltb o (to_number (paymentAmount (set_paymentError "" st))));
      reflexivity. }
  destruct (valid st) as [b st'] eqn:E. simpl in H, Hp. subst b. simpl.
  split; [reflexivity | split; [exact Hp|]].
  intros invoice amount email [Hin | []]. discriminate.
Qed.

(** [isFormValid] can change the error message and nothing else. *)
Lemma isFormValid_frame (st : Dialog) :
  exists m, snd (valid st) = set_paymentError m st.
Proof.
  unfold isFormValid. destruct (paymentType st).
  - exists (paymentError st). now destruct st.
  - destruct (str_truthy (billing_email st)
              && str_truthy (billing_mobile_number st)
              && amount_truthy (paymentAmount st)
              && ltb zero (to_number (paymentAmount st))).
    + unfold validatePaymentAmount.
      destruct (negb (amount_truthy (paymentAmount (set_paymentError "" st)))
                || leb (to_number (paymentAmount (set_paymentError "" st)))
                     zero); [eexists; reflexivity|].
      destruct (ltb o (to_number (paymentAmount (set_paymentError "" st))));
        eexists; reflexivity.
    + exists (paymentError st). now destruct st.
Qed.

(** Whether the form is valid does not depend on the processing flag or
    on the error message shown. *)
Lemma isFormValid_indep (st : Dialog) (b : bool) (m : string) :
  fst (valid (set_isProcessing b (set_paymentError m st))) = fst (valid st).
Proof.
  destruct (fst (valid st)) eqn:E.
  - apply isFormValid_true in E. destruct E as (He & Hm & Hp & _).
    apply isFormValid_intro; simpl; tauto.
  - destruct (fst (valid (set_isProcessing b (set_paymentError m st))))
      eqn:E'; [|reflexivity].
    apply isFormValid_true in E'. destruct E' as (He & Hm & Hp & _).
    simpl in He, Hm, Hp.
    assert (H : fst (valid st) = true) by (apply isFormValid_intro; tauto).
    congruence.
Qed.

(** The effect of [proceedToPayment], read off the inputs of the form. *)
Lemma proceed_effects (st : Dialog) :
  snd (proceed st)
  = if fst (valid st)
    then [CallInitiatePayment (invoice row)
            (match paymentType st with
             | Full => Entered o
             | Partial => paymentAmount st
             end)
            (billing_email st)]
    else [CreateToast "Validation Error"
            "Please fill in all required fields correctly"].
Proof.
  unfold proceedToPayment. destruct (isFormValid_frame st) as (m & Hm).
  destruct (valid st) as [b st'] eqn:E. simpl in Hm. subst st'. simpl.
  destruct b; reflexivity.
Qed.

Lemma proceed_state_valid (st : Dialog) :
  fst (valid st) = true ->
  exists m, fst (proceed st) = set_isProcessing true (set_paymentError m st).
Proof.
  intro H. unfold proceedToPayment. destruct (isFormValid_frame st) as (m & Hm).
  destruct (valid st) as [b st'] eqn:E. simpl in Hm, H. subst st' b. simpl.
  now exists m.
Qed.

(** X3.  When the payment call fails (it throws, or resolves without
    success), the dialog stops processing, shows one toast with a
    non-empty description and keeps the inputs, so that pressing the
    button again issues the same payment call. *)
Theorem failed_payment_can_be_retried (st : Dialog) (o' : CallOutcome) :
  fst (valid st) = true ->
  (forall url m, o' <> Resolved true url m) ->
  let after := proceedToPayment_resume o' (fst (proceed st)) in
  isProcessing (fst after) = false
  /\ (exists title text, snd after = [CreateToast title text] /\ text <> "")
  /\ snd (proceed (fst after)) = snd (proceed st).
Proof.
  intros Hv Ho after. subst after.
  destruct (proceed_state_valid st Hv) as (m & Hs). rewrite Hs.
  assert (Hd : forall s d, d <> "" -> or_default s d <> "").
  { intros s d Hd. unfold or_default. destruct s; simpl; [exact Hd|].
    discriminate. }
  assert (Hretry :
    snd (proceed (set_isProcessing false
                    (set_isProcessing true (set_paymentError m st))))
    = snd (proceed st)).
  { rewrite !proceed_effects.
    change (set_isProcessing false
              (set_isProcessing true (set_paymentError m st)))
      with (set_isProcessing false (set_paymentError m st)).
    rewrite isFormValid_indep. reflexivity. }
  destruct o' as [[|] url msg | msg]; simpl.
  - exfalso. exact (Ho url msg eq_refl).
  - split; [reflexivity | split; [|exact Hretry]].
    eexists. eexists. split; [reflexivity|]. apply Hd. discriminate.
  - split; [reflexivity | split; [|exact Hretry]].
    eexists. eexists. split; [reflexivity|]. apply Hd. discriminate.
Qed.

(** X4.  For an entered amount [a] with [0 < a <= o], where [o] is the
    row's raw amount, no clamping takes place: the balance shown after
    payment is the currency format of the double [o - a], and that double
    is not negative. *)
Theorem remaining_after_valid_amount (st : Dialog) (balance a : Qc) :
  amount_outstanding_raw row = Num balance ->
  paymentAmount st = Entered a ->
  (zero < a)%Qc -> (a <= balance)%Qc ->
  getRemainingAfter formatCurrency row st
  = formatCurrency (JsNumber.sub balance a)
  /\ (zero <= JsNumber.sub balance a)%Qc.
Proof.
  intros Hr Ha Hq Ho.
  assert (Hs : (zero <= JsNumber.sub balance a)%Qc).
  { apply JsNumberFacts.to_double_nonneg. unfold zero, Qcminus.
    exact (proj1 (Qcle_minus_iff a balance) Ho). }
  split; [|exact Hs].
  unfold getRemainingAfter.
  rewrite paying_to_number, (outstanding_raw row), Hr, Ha. simpl to_number.
  destruct (ltb zero (JsNumber.sub balance a)) eqn:E; [reflexivity|].
  apply ltb_false_le in E. f_equal. now apply Qcle_antisym.
Qed.

End Component.

(** X3 and X4 at the session that pays 600 on a balance of 1000. *)
Lemma failed_payment_can_be_retried_witness :
  fst (isFormValid fmt_plain row1 partial_600) = true
  /\ snd (proceedToPayment fmt_plain row1
            (fst (proceedToPayment_resume (Thrown "timeout")
                    (fst (proceedToPayment fmt_plain row1 partial_600)))))
     = snd (proceedToPayment fmt_plain row1 partial_600).
Proof.
  split; [reflexivity|].
  apply (failed_payment_can_be_retried fmt_plain row1 partial_600
           (Thrown "timeout")).
  - reflexivity.
  - discriminate.
Defined.

Lemma remaining_after_valid_amount_witness :
  (zero < Q2Qc (600 # 1))%Qc
  /\ (Q2Qc (600 # 1) <= Q2Qc (1000 # 1))%Qc
  /\ getRemainingAfter fmt_plain row1 partial_600 = "NGN 400/1".
Proof.
  assert (H1 : (zero < Q2Qc (600 # 1))%Qc) by reflexivity.
  assert (H2 : (Q2Qc (600 # 1) <= Q2Qc (1000 # 1))%Qc) by discriminate.
  split; [exact H1 | split; [exact H2|]].
  exact (proj1 (remaining_after_valid_amount fmt_plain row1 partial_600
                  (Q2Qc (1000 # 1)) (Q2Qc (600 # 1)) eq_refl eq_refl H1 H2)).
Defined.

(** X2 at a session that tries to pay 1500 on a balance of 1000. *)
Lemma proceedToPayment_invalid_witness :
  fst (isFormValid fmt_plain row1 partial_1500) = false
  /\ snd (proceedToPayment fmt_plain row1 partial_1500)
     = [CreateToast "Validation Error"
          "Please fill in all required fields correctly"].
Proof.
  split; [reflexivity|].
  apply (proceedToPayment_invalid fmt_plain row1 partial_1500).
  reflexivity.
Defined.

End PaymentDialogMore.

(** ** The Fees page *)

Module FeesPageProps.
Import Js JsFacts JsArray JsArrayFacts JsObject FeesPage.
Local Open Scope string_scope.

Example onSuccess_sample :
  map (fun r => invoice (source r))
    (rows (onSuccess fmt_units
             (Some (mkResponse (Some [inv_paid; inv_partly; inv_overdue]) ""))
             empty_page))
  = ["INV-2"; "INV-3"; "INV-1"].
Proof. reflexivity. Qed.

Lemma not_inherited (key : string) :
  ~ In key prototype_names ->
  existsb (String.eqb key) prototype_names = false.
Proof.
  intro H. destruct (existsb (String.eqb key) prototype_names) eqn:E;
    [|reflexivity].
  apply existsb_exists in E. destruct E as (k & Hk & E).
  apply String.eqb_eq in E. subst k. contradiction.
Qed.

(** For a status that is not the name of an inherited member, the value
    the comparator computes with is the rank. *)
Lemma status_value_rank (s : string) :
  ~ In s prototype_names -> status_value s = Some (rank s).
Proof.
  intro H. unfold status_value, rank, get, statusOrder. simpl.
  destruct (String.eqb s "Overdue"); [reflexivity|].
  destruct (String.eqb s "Unpaid"); [reflexivity|].
  destruct (String.eqb s "Partly Paid"); [reflexivity|].
  destruct (String.eqb s "Paid"); [reflexivity|].
  change (match (if existsb (String.eqb s) prototype_names
                 then @Inherited Z else Absent) with
          | Own n => Some n
          | Inherited => None
          | Absent => Some 99%Z
          end = Some 99%Z).
  now rewrite (not_inherited s H).
Qed.

Section Sorting.
Variable A : Type.

Lemma insert_ext (le1 le2 : A -> A -> bool) (x : A) (l : list A) :
  (forall y, In y l -> le1 x y = le2 x y) ->
  insert le1 x l = insert le2 x l.
Proof.
  induction l as [| y l IH]; intro H; simpl; [reflexivity|].
  rewrite (H y (or_introl eq_refl)).
  destruct (le2 x y); [reflexivity|].
  f_equal. apply IH. intros z Hz. apply H. now right.
Qed.

(** Two comparators that agree on the elements of a list sort it alike. *)
Lemma sort_ext (le1 le2 : A -> A -> bool) (l : list A) :
  (forall x y, In x l -> In y l -> le1 x y = le2 x y) ->
  sort le1 l = sort le2 l.
Proof.
  induction l as [| x l IH]; intro H; simpl; [reflexivity|].
  rewrite IH by (intros a b Ha Hb; apply H; now right).
  apply insert_ext. intros y Hy. apply H; [now left|].
  right. exact (Permutation_in _ (sort_Permutation A le2 l) Hy).
Qed.

End Sorting.

Section Formatting.
Variable formatCurrency : Qc -> string.

Local Abbreviation by_rank :=
  (fun a b : Row => (rank (status (source a)) <=? rank (status (source b)))%Z).

Lemma status_le_by_rank (invoices : list Invoice) (a b : Row) :
  Forall ranked invoices ->
  In a (map (format_invoice formatCurrency) invoices) ->
  In b (map (format_invoice formatCurrency) invoices) ->
  status_le a b = by_rank a b.
Proof.
  intros H Ha Hb. rewrite Forall_forall in H.
  apply in_map_iff in Ha. destruct Ha as (i & <- & Hi).
  apply in_map_iff in Hb. destruct Hb as (j & <- & Hj).
  unfold status_le, compare_status. simpl.
  rewrite (status_value_rank _ (H i Hi)), (status_value_rank _ (H j Hj)).
  destruct (rank (status i) - rank (status j) <=? 0)%Z eqn:E.
  - symmetry. apply Z.leb_le. apply Z.leb_le in E. lia.
  - symmetry. apply Z.leb_gt. apply Z.leb_gt in E. lia.
Qed.

(** X5.  When no status is the name of an inherited object member, the
    table lists exactly the fetched invoices, formatted, ordered by status
    rank: every row comes before all rows of a higher rank (Overdue,
    Unpaid, Partly Paid, Paid, then any other status). *)
Theorem onSuccess_sorted_by_status (invoices : list Invoice)
  (format : string) (p : Page) :
  Forall ranked invoices ->
  let table :=
    rows (onSuccess formatCurrency
            (Some (mkResponse (Some invoices) format)) p) in
  Permutation table (map (format_invoice formatCurrency) invoices)
  /\ StronglySorted
       (fun a b => (rank (status (source a)) <= rank (status (source b)))%Z)
       table.
Proof.
  intros H table. subst table. simpl. split.
  - apply sort_Permutation.
  - rewrite (sort_ext Row status_le by_rank)
      by (intros a b Ha Hb; now apply (status_le_by_rank invoices)).
    apply Sorted_StronglySorted.
    + intros a b c Hab Hbc. lia.
    + assert (Hs := sort_Sorted Row by_rank).
      eapply Sorted_ind with (P := fun l => Sorted _ l);
        [constructor | | apply Hs].
      * intros a l _ IH Hhd. constructor; [exact IH|].
        destruct Hhd; constructor. now apply Z.leb_le.
      * intros a b. rewrite !Z.leb_le. lia.
Qed.

(** X6.  [onSuccess] stores the print format the response names, and
    'Standard' when the response is undefined or names none, so the stored
    format is never empty; the table gets one row per invoice returned,
    and the dialog state is not touched. *)
Theorem onSuccess_print_format (response : option Response) (p : Page) :
  let p' := onSuccess formatCurrency response p in
  let named :=
    match response with Some r => print_format r | None => "" end in
  printFormat p' = (if String.eqb named "" then "Standard" else named)
  /\ printFormat p' <> ""
  /\ length (rows p')
     = length (match response with
               | Some r => match invoices r with Some l => l | None => [] end
               | None => []
               end)
  /\ currentRow p' = currentRow p
  /\ showPaymentDialog p' = showPaymentDialog p.
Proof.
  simpl. split; [|split; [|split; [|split; reflexivity]]].
  - destruct response as [r |]; [|reflexivity].
    destruct (print_format r); reflexivity.
  - destruct response as [r |]; [|discriminate].
    destruct (print_format r); simpl; discriminate.
  - rewrite (Permutation_length (sort_Permutation Row status_le _)).
    apply length_map.
Qed.

(** X7.  The outstanding amount of a listed row is shown green exactly
    when nothing is outstanding (also when the server sent no amount), red
    exactly when it is positive, and gray exactly when it is negative. *)
Theorem outstanding_colour (i : Invoice) :
  let x := field_or_zero (outstanding_amount i) in
  let colour :=
    getOutstandingColor
      (Num (amount_outstanding_raw (format_invoice formatCurrency i))) in
  (colour = "text-green-600 font-semibold" <-> x = zero)
  /\ (colour = "text-red-600 font-semibold" <-> (zero < x)%Qc)
  /\ (colour = "text-gray-700" <-> (x < zero)%Qc).
Proof.
  intros x colour. subst colour. simpl. fold x.
  destruct (eqb x zero) eqn:E.
  - apply eqb_eq in E. rewrite E.
    split; [tauto|]. split; split; try discriminate; intro H; exfalso;
      exact (Qclt_not_le _ _ H (Qcle_refl _)).
  - assert (Hne : x <> zero).
    { intro H. apply eqb_eq in H. congruence. }
    destruct (ltb zero x) eqn:L.
    + apply ltb_lt in L.
      split; [split; [discriminate | contradiction]|].
      split; [tauto|]. split; [discriminate|].
      intro H. exfalso. exact (Qclt_not_le _ _ H (Qclt_le_weak _ _ L)).
    + apply ltb_false_le in L.
      split; [split; [discriminate | contradiction]|].
      split.
      * split; [discriminate|]. intro H. exfalso.
        exact (Qclt_not_le _ _ H L).
      * split; [|reflexivity]. intros _.
        destruct (Qcle_lt_or_eq _ _ L) as [H | H]; [exact H | contradiction].
Qed.

End Formatting.

(** X5 at three invoices. *)
Lemma onSuccess_sorted_by_status_witness :
  Forall ranked [inv_paid; inv_partly; inv_overdue]
  /\ StronglySorted
       (fun a b => (rank (status (source a)) <= rank (status (source b)))%Z)
       (rows (onSuccess fmt_units
                (Some (mkResponse (Some [inv_paid; inv_partly; inv_overdue])
                         "")) empty_page)).
Proof.
  assert (H : Forall ranked [inv_paid; inv_partly; inv_overdue]).
  { repeat constructor; unfold ranked; simpl; intuition discriminate. }
  split; [exact H|].
  exact (proj2 (onSuccess_sorted_by_status fmt_units
                  [inv_paid; inv_partly; inv_overdue] "" empty_page H)).
Defined.

(** X8.  Paying a listed invoice in full: with email and phone filled in,
    the dialog opened on a row of the table sends the invoice's name and
    the outstanding amount the server reported ([0] when it reported
    none). *)
Theorem full_payment_of_listed_invoice (fmt fmt' : Qc -> string)
  (i : Invoice) (st : FeesPaymentDialog.Dialog) :
  FeesPaymentDialog.paymentType st = FeesPaymentDialog.Full ->
  FeesPaymentDialog.billing_email st <> "" ->
  FeesPaymentDialog.billing_mobile_number st <> "" ->
  snd (FeesPaymentDialog.proceedToPayment fmt'
         (dialog_row (format_invoice fmt i)) st)
  = [FeesPaymentDialog.CallInitiatePayment (invoice i)
       (FeesPaymentDialog.Entered (field_or_zero (outstanding_amount i)))
       (FeesPaymentDialog.billing_email st)].
Proof.
  intros Hf He Hm. rewrite PaymentDialogMore.proceed_effects.
  assert (Hv : fst (FeesPaymentDialog.isFormValid fmt'
                      (dialog_row (format_invoice fmt i)) st) = true).
  { unfold FeesPaymentDialog.isFormValid. rewrite Hf. simpl.
    now rewrite (PaymentDialogMore.nonempty_truthy _ He),
      (PaymentDialogMore.nonempty_truthy _ Hm). }
  assert (Ho : FeesPaymentDialog.outstanding
                 (dialog_row (format_invoice fmt i))
               = field_or_zero (outstanding_amount i))
    by apply or_zero_Num.
  rewrite Hv, Hf, Ho. reflexivity.
Qed.

(** X8 at the overdue sample invoice. *)
Lemma full_payment_of_listed_invoice_witness :
  snd (FeesPaymentDialog.proceedToPayment FeesPaymentDialog.fmt_plain
         (dialog_row (format_invoice fmt_units inv_overdue))
         (FeesPaymentDialog.mkDialog false FeesPaymentDialog.Full
            FeesPaymentDialog.Null "" "a@school.test" "0800"))
  = [FeesPaymentDialog.CallInitiatePayment "INV-2"
       (FeesPaymentDialog.Entered (Q2Qc (800 # 1))) "a@school.test"].
Proof.
  apply (full_payment_of_listed_invoice fmt_units
           FeesPaymentDialog.fmt_plain inv_overdue
           (FeesPaymentDialog.mkDialog false FeesPaymentDialog.Full
              FeesPaymentDialog.Null "" "a@school.test" "0800"));
    [reflexivity | discriminate | discriminate].
Defined.

(** A status has a badge colour exactly when its rank is below that of
    the unknown statuses. *)
Lemma badge_rank (s : string) :
  (exists colour, badgeColor s = Own colour) <-> (rank s < 99)%Z.
Proof.
  unfold badgeColor, rank, get, badgeColorMap. simpl.
  destruct (String.eqb s "Paid") eqn:E1.
  - apply String.eqb_eq in E1. subst s. simpl.
    split; [lia | eexists; reflexivity].
  - destruct (String.eqb s "Unpaid") eqn:E2.
    + apply String.eqb_eq in E2. subst s. simpl.
      split; [lia | eexists; reflexivity].
    + destruct (String.eqb s "Overdue") eqn:E3.
      * split; [lia | eexists; reflexivity].
      * destruct (String.eqb s "Partly Paid") eqn:E4.
        -- split; [lia | eexists; reflexivity].
        -- split; [|lia]. intros (c & H).
           match type of H with
           | (if ?b then _ else _) = _ => destruct b
           end; discriminate.
Qed.

(** The two tables of the page know the same statuses. *)
Lemma badge_statusOrder (s : string) :
  (exists colour, badgeColor s = Own colour)
  <-> (exists n, get statusOrder s = Own n).
Proof.
  unfold badgeColor, get, badgeColorMap, statusOrder. simpl.
  destruct (String.eqb s "Paid") eqn:E1.
  - apply String.eqb_eq in E1. subst s. simpl.
    split; intros _; eexists; reflexivity.
  - destruct (String.eqb s "Unpaid") eqn:E2.
    + apply String.eqb_eq in E2. subst s. simpl.
      split; intros _; eexists; reflexivity.
    + destruct (String.eqb s "Overdue") eqn:E3.
      * split; intros _; eexists; reflexivity.
      * destruct (String.eqb s "Partly Paid") eqn:E4.
        -- split; intros _; eexists; reflexivity.
        -- split; intros (c & H);
             match type of H with
             | (if ?b then _ else _) = _ => destruct b
             end; discriminate.
Qed.

Lemma StronglySorted_weaken (A : Type) (R R' : A -> A -> Prop)
  (l : list A) :
  (forall a b, R a b -> R' a b) -> StronglySorted R l -> StronglySorted R' l.
Proof.
  intros H Hs. induction Hs as [| a l Hs IH Hall]; constructor.
  - exact IH.
  - eapply Forall_impl; [|exact Hall]. intros b Hb. now apply H.
Qed.

Lemma table_sorted_by_rank (formatCurrency : Qc -> string)
  (invoices : list Invoice) (format : string) (p : Page) :
  Forall ranked invoices ->
  StronglySorted
    (fun a b => (rank (status (source a)) <= rank (status (source b)))%Z)
    (rows (onSuccess formatCurrency
             (Some (mkResponse (Some invoices) format)) p)).
Proof.
  intro H. simpl.
  rewrite (sort_ext Row status_le
             (fun a b => (rank (status (source a))
                          <=? rank (status (source b)))%Z))
    by (intros a b Ha Hb;
        now apply (status_le_by_rank formatCurrency invoices)).
  apply Sorted_StronglySorted.
  - intros a b c Hab Hbc. lia.
  - assert (Hs := sort_Sorted Row
                    (fun a b => (rank (status (source a))
                                 <=? rank (status (source b)))%Z)).
    eapply Sorted_ind with (P := fun l => Sorted _ l);
      [constructor | | apply Hs].
    + intros a l _ IH Hhd. constructor; [exact IH|].
      destruct Hhd; constructor. now apply Z.leb_le.
    + intros a b. rewrite !Z.leb_le. lia.
Qed.

(** X9.  The badge colour table and the [statusOrder] table of the sort
    have the same statuses as their own keys.  So, when no status is the
    name of an inherited object member, the sorted table lists every row
    whose status has a badge colour before every row whose status has
    none. *)
Theorem badge_iff_ranked (formatCurrency : Qc -> string)
  (invoices : list Invoice) (format : string) (p : Page) :
  (forall s,
      (exists colour, badgeColor s = Own colour)
      <-> (exists n, get statusOrder s = Own n))
  /\ (Forall ranked invoices ->
      StronglySorted
        (fun a b =>
           (exists colour, badgeColor (status (source b)) = Own colour) ->
           exists colour, badgeColor (status (source a)) = Own colour)
        (rows (onSuccess formatCurrency
                 (Some (mkResponse (Some invoices) format)) p))).
Proof.
  split; [exact badge_statusOrder|].
  intro H.
  apply StronglySorted_weaken
    with (R := fun a b =>
                 (rank (status (source a)) <= rank (status (source b)))%Z).
  - intros a b Hab Hb. apply badge_rank. apply badge_rank in Hb. lia.
  - now apply table_sorted_by_rank.
Qed.

(** X9 at a table with a status the page does not know. *)
Lemma badge_iff_ranked_witness :
  Forall ranked
    [mkInvoice "INV-9" "JSS 1" "Draft" "" None None None; inv_paid]
  /\ map (fun r => status (source r))
       (rows (onSuccess fmt_units
                (Some (mkResponse
                         (Some [mkInvoice "INV-9" "JSS 1" "Draft" "" None
                                  None None; inv_paid]) ""))
                empty_page))
     = ["Paid"; "Draft"]
  /\ StronglySorted
       (fun a b =>
          (exists colour, badgeColor (status (source b)) = Own colour) ->
          exists colour, badgeColor (status (source a)) = Own colour)
       (rows (onSuccess fmt_units
                (Some (mkResponse
                         (Some [mkInvoice "INV-9" "JSS 1" "Draft" "" None
                                  None None; inv_paid]) ""))
                empty_page)).
Proof.
  assert (H : Forall ranked
                [mkInvoice "INV-9" "JSS 1" "Draft" "" None None None;
                 inv_paid]).
  { repeat constructor; unfold ranked; simpl; intuition discriminate. }
  split; [exact H | split; [reflexivity|]].
  exact (proj2 (badge_iff_ranked fmt_units _ "" empty_page) H).
Defined.

Lemma has_get_param (params : list (string * string)) (name : string) :
  has params name = true <-> exists v, get_param params name = Some v.
Proof.
  induction params as [| [k v] rest IH]; simpl.
  - split; [discriminate | intros (v & H); discriminate].
  - destruct (String.eqb k name); simpl.
    + split; [intros _; now exists v | reflexivity].
    + exact IH.
Qed.

(** X10.  When the page is opened with an [error] parameter whose value
    is not the name of an inherited object member, the hook shows one
    'Payment Error' toast with a non-empty text, the generic one for a
    code it does not know, and cleans the address at once. *)
Theorem onMounted_error (params : list (string * string)) (code : string) :
  get_param params "error" = Some code ->
  ~ In code prototype_names ->
  exists text,
    text <> ""
    /\ (own errorMessages code = None ->
        text = "An error occurred during payment.")
    /\ exists before,
         onMounted params
         = (before ++ [CreateToast "Payment Error" (Text text);
                       Now (ReplaceState "/app/student-portal/fees")])%list
         /\ forall t d, In (CreateToast t d) before -> t <> "Payment Error".
Proof.
  intros Hg Hc.
  assert (Hh : has params "error" = true)
    by (apply has_get_param; now exists code).
  unfold onMounted. rewrite Hh, Hg.
  assert (Hd : exists text,
             error_description code = Text text /\ text <> ""
             /\ (own errorMessages code = None ->
                 text = "An error occurred during payment.")).
  { unfold error_description, get.
    destruct (own errorMessages code) as [m |] eqn:E.
    - assert (Hm : m <> "").
      { unfold errorMessages in E. simpl in E.
        repeat match type of E with
               | (if ?b then _ else _) = _ => destruct b
               end; inversion E; discriminate. }
      exists m. rewrite (PaymentDialogMore.nonempty_truthy _ Hm).
      repeat split; [exact Hm | discriminate].
    - rewrite (not_inherited code Hc). eexists.
      repeat split; discriminate. }
  destruct Hd as (text & Hd & Hne & Hdef). rewrite Hd.
  exists text. split; [exact Hne | split; [exact Hdef|]].
  eexists. split; [reflexivity|].
  intros t d Hin. destruct (has params "success"); simpl in Hin.
  - destruct Hin as [H | [H | []]]; inversion H. discriminate.
  - contradiction.
Qed.

(** X10 at a declined payment and at an unknown code. *)
Lemma onMounted_error_witness :
  onMounted [("error", "payment_failed")]
  = [CreateToast "Payment Error"
       (Text "Payment was declined. Please try again.");
     Now (ReplaceState "/app/student-portal/fees")]
  /\ exists text,
       text <> ""
       /\ (own errorMessages "E42" = None ->
           text = "An error occurred during payment.")
       /\ exists before,
            onMounted [("success", "1"); ("error", "E42")]
            = (before ++ [CreateToast "Payment Error" (Text text);
                          Now (ReplaceState "/app/student-portal/fees")])%list
            /\ forall t d, In (CreateToast t d) before -> t <> "Payment Error".
Proof.
  split; [reflexivity|].
  apply (onMounted_error [("success", "1"); ("error", "E42")] "E42").
  - reflexivity.
  - simpl. intuition discriminate.
Defined.

End FeesPageProps.

(** ** More on the Reports page *)

Module ReportsMore.
Import Js JsArray JsArrayFacts JsString PageSpec Samples Reports ReportsPrint.
Import PagesProps.
Local Open Scope string_scope.

Example apiCall_null_body :
  apiCall "result is null" (Response true 200 "null" (Some JsonNull))
  = Error "result is null".
Proof. reflexivity. Qed.


Lemma filteredReports_In (localeCompare : string -> string -> Z)
  (p : Page) (r : Report) :
  In r (filteredReports localeCompare p)
  <-> In r (allReports p) /\ report_matches p r.
Proof.
  rewrite filteredReports_unfold. unfold report_matches. split.
  - intro H. apply (Permutation_in _ (sort_Permutation _ _ _)) in H.
    rewrite !keep_In in H. tauto.
  - intro H.
    apply (Permutation_in _ (Permutation_sym (sort_Permutation _ _ _))).
    rewrite !keep_In. tauto.
Qed.

(** X12.  After [clearFilters] no filter is active and the page lists
    every fetched report, each as often as it was fetched. *)
Theorem clearFilters_shows_all (localeCompare : string -> string -> Z)
  (p : Page) :
  hasFilters (clearFilters p) = false
  /\ allReports (clearFilters p) = allReports p
  /\ Permutation (filteredReports localeCompare (clearFilters p))
       (allReports p).
Proof.
  split; [reflexivity | split; [reflexivity|]].
  rewrite filteredReports_unfold. simpl. apply sort_Permutation.
Qed.

Lemma option_in_derived (f : string -> Page -> Page) (all : Option)
  (vals : list string) (o : Option) :
  In o (all :: map (fun v => mkOption v v (f v)) vals) ->
  o = all \/ (In (value o) vals /\ onClick o = f (value o)).
Proof.
  intros [H | H]; [left; now symmetry|]. right.
  apply in_map_iff in H. destruct H as (v & <- & Hv). simpl. now split.
Qed.

Lemma distinct_In (xs : list string) (v : string) :
  In v (sort_default (new_Set xs)) <-> In v xs.
Proof. rewrite sort_default_In. apply new_Set_In. Qed.

(** X13.  Every option the three filters offer leads somewhere: with the
    other filters cleared, choosing an option with a non-empty value lists
    exactly the fetched reports that carry that value, and at least one
    such report exists. *)
Theorem offered_option_finds_reports (localeCompare : string -> string -> Z)
  (p : Page) (o : Option) :
  value o <> "" ->
  let shown := filteredReports localeCompare (onClick o (clearFilters p)) in
  (In o (academicYearFilterOptions p) ->
   (exists r, In r shown)
   /\ forall r, In r shown
                <-> In r (allReports p) /\ academic_year r = value o)
  /\ (In o (termFilterOptions p) ->
      (exists r, In r shown)
      /\ forall r, In r shown
                   <-> In r (allReports p) /\ assessment_group r = value o)
  /\ (In o (programFilterOptions p) ->
      (exists r, In r shown)
      /\ forall r, In r shown
                   <-> In r (allReports p) /\ program r = value o).
Proof.
  intros Hv shown. subst shown.
  split; [|split]; intro Hin; apply option_in_derived in Hin;
    destruct Hin as [-> | (Hin & Hc)]; try (exfalso; now apply Hv);
    rewrite Hc.
  - apply distinct_In, in_map_iff in Hin. destruct Hin as (r0 & E & H0).
    assert (Hiff : forall r,
               In r (filteredReports localeCompare
                       (set_filterYear (value o) (clearFilters p)))
               <-> In r (allReports p) /\ academic_year r = value o).
    { intro r. rewrite filteredReports_In. unfold report_matches, selects.
      simpl. intuition congruence. }
    split; [exists r0; apply Hiff; now split | exact Hiff].
  - apply distinct_In, in_map_iff in Hin. destruct Hin as (r0 & E & H0).
    assert (Hiff : forall r,
               In r (filteredReports localeCompare
                       (set_filterTerm (value o) (clearFilters p)))
               <-> In r (allReports p) /\ assessment_group r = value o).
    { intro r. rewrite filteredReports_In. unfold report_matches, selects.
      simpl. intuition congruence. }
    split; [exists r0; apply Hiff; now split | exact Hiff].
  - apply distinct_In, filter_Boolean_In in Hin. destruct Hin as (_ & Hin).
    apply in_map_iff in Hin. destruct Hin as (r0 & E & H0).
    assert (Hiff : forall r,
               In r (filteredReports localeCompare
                       (set_filterProgram (value o) (clearFilters p)))
               <-> In r (allReports p) /\ program r = value o).
    { intro r. rewrite filteredReports_In. unfold report_matches, selects.
      simpl. intuition congruence. }
    split; [exists r0; apply Hiff; now split | exact Hiff].
Qed.

(** X13 at the option for the year 2025-2026. *)
Lemma offered_option_finds_reports_witness :
  In (mkOption "2025-2026" "2025-2026" (set_filterYear "2025-2026"))
    (academicYearFilterOptions (reports_page [report_jss2; report_jss1]))
  /\ exists r,
       In r (filteredReports localeCompare_units
               (set_filterYear "2025-2026"
                  (clearFilters (reports_page [report_jss2; report_jss1])))).
Proof.
  assert (H : In (mkOption "2025-2026" "2025-2026"
                    (set_filterYear "2025-2026"))
                (academicYearFilterOptions
                   (reports_page [report_jss2; report_jss1]))).
  { simpl. right. right. now left. }
  split; [exact H|].
  assert (Hv : value (mkOption "2025-2026" "2025-2026"
                        (set_filterYear "2025-2026")) <> "")
    by discriminate.
  destruct (offered_option_finds_reports localeCompare_units
              (reports_page [report_jss2; report_jss1]) _ Hv) as (Hy & _).
  exact (proj1 (Hy H)).
Defined.

Lemma Sorted_weaken (A : Type) (R R' : A -> A -> Prop) (l : list A) :
  (forall a b, R a b -> R' a b) -> Sorted R l -> Sorted R' l.
Proof.
  intros H Hs. induction Hs as [| a l Hs IH Hhd]; constructor.
  - exact IH.
  - destruct Hhd; constructor. now apply H.
Qed.

(** X14.  If the collation never ranks two strings each strictly after the
    other, the reports are listed in the comparator's order: no report is
    directly followed by one the comparator puts before it. *)
Theorem filteredReports_ordered (localeCompare : string -> string -> Z)
  (p : Page) :
  (forall x y, (localeCompare x y <= 0 \/ localeCompare y x <= 0)%Z) ->
  Sorted (fun a b => (compareReports localeCompare a b <= 0)%Z)
    (filteredReports localeCompare p).
Proof.
  intro Htot. rewrite filteredReports_unfold.
  apply Sorted_weaken
    with (R := fun a b => (compareReports localeCompare a b <=? 0)%Z = true).
  - intros a b H. now apply Z.leb_le.
  - apply sort_Sorted. intros a b. rewrite !Z.leb_le.
    unfold compareReports.
    rewrite (String.eqb_sym (academic_year b) (academic_year a)).
    destruct (negb (String.eqb (academic_year a) (academic_year b)));
      [destruct (Htot (academic_year b) (academic_year a)); tauto|].
    apply Htot.
Qed.

Lemma localeCompare_units_total (x y : string) :
  (localeCompare_units x y <= 0 \/ localeCompare_units y x <= 0)%Z.
Proof.
  unfold localeCompare_units. rewrite (String.compare_antisym y x).
  destruct (String.compare x y); simpl; lia.
Qed.

(** X14 for the collation by code units. *)
Lemma filteredReports_ordered_witness :
  Sorted (fun a b => (compareReports localeCompare_units a b <= 0)%Z)
    (filteredReports localeCompare_units
       (reports_page [report_jss1; report_jss2; report_blank_program])).
Proof.
  apply (filteredReports_ordered localeCompare_units).
  exact localeCompare_units_total.
Defined.

(** *** Print formats *)

Example secondary_samples :
  map isSecondaryProgram
    ["JSS 1"; "SS 2"; "Senior Class"; "Primary 3"; "Nursery 1"; "Class 5"; ""]
  = [true; true; true; false; false; true; false].
Proof. reflexivity. Qed.

(** A string that includes a keyword includes the keyword's tail. *)
Lemma prefix_includes (s sub : string) :
  String.prefix sub s = true -> includes s sub = true.
Proof.
  intro H. destruct s; cbn [includes]; rewrite H; reflexivity.
Qed.

Lemma includes_tail (s sub : string) (c : ascii) :
  includes s (String c sub) = true -> includes s sub = true.
Proof.
  induction s as [| a s IH]; cbn [includes].
  - simpl. discriminate.
  - intro H. apply orb_true_iff in H. apply orb_true_iff. right.
    destruct H as [H | H].
    + simpl in H. destruct (ascii_dec c a); [|discriminate].
      now apply prefix_includes.
    + now apply IH.
Qed.

(** X15.  Four of the six keywords decide: a program counts as secondary
    exactly when its lower-case name includes 'ss', 'secondary',
    'high school' or 'senior'.  The keywords 'jss' and 'junior secondary'
    add nothing, and every name that includes 'ss' counts as secondary. *)
Theorem isSecondaryProgram_iff (program : string) :
  isSecondaryProgram program = true
  <-> includes (toLowerCase program) "ss" = true
      \/ includes (toLowerCase program) "secondary" = true
      \/ includes (toLowerCase program) "high school" = true
      \/ includes (toLowerCase program) "senior" = true.
Proof.
  unfold isSecondaryProgram. destruct program as [| c program].
  - simpl. split; [discriminate | intuition discriminate].
  - change (negb (str_truthy (String c program))) with false.
    cbv iota. generalize (toLowerCase (String c program)). intro l.
    unfold secondaryKeywords. cbn [existsb].
    rewrite !orb_true_iff. split.
    + intros [H | [H | [H | [H | [H | [H | H]]]]]]; try tauto.
      * left. now apply includes_tail in H.
      * right. left. now do 7 apply includes_tail in H.
      * discriminate.
    + tauto.
Qed.

(** X16.  [getPrintFormatForProgram] never gives an empty format name:
    it is the configured format of the program's level when that is set,
    and 'Standard' when it is not set, when no settings arrive, or when the
    fetch fails. *)
Theorem getPrintFormatForProgram_never_empty (o : FormatsOutcome)
  (program : string) :
  getPrintFormatForProgram o program <> ""
  /\ (forall m,
         o = FormatsReturned (Some m) ->
         let configured :=
           if isSecondaryProgram program
           then secondary_print_format m
           else primary_print_format m in
         getPrintFormatForProgram o program
         = if String.eqb configured "" then "Standard" else configured)
  /\ (o = FormatsReturned None \/ (exists e, o = FormatsThrew e) ->
      getPrintFormatForProgram o program = "Standard").
Proof.
  assert (Hs : forall s, or_Standard s
                         = if String.eqb s "" then "Standard" else s).
  { intros [| c s]; reflexivity. }
  assert (Hn : forall s, or_Standard s <> "").
  { intros [| c s]; discriminate. }
  split; [|split].
  - destruct o as [[m |] | e]; simpl;
      try destruct (isSecondaryProgram program);
      try apply Hn; discriminate.
  - intros m ->. simpl.
    destruct (isSecondaryProgram program); apply Hs.
  - intros [-> | (e & ->)]; simpl; [|reflexivity].
    destruct (isSecondaryProgram program); reflexivity.
Qed.

End ReportsMore.

(** ** More on the Awards page *)

Module AwardsMore.
Import Js JsArray JsArrayFacts IndividualAwards AwardsLoading Samples.
Local Open Scope string_scope.

(** X17.  [loadAwards] always ends with both loading flags off and the
    filters as they were.  A successful load stores the returned awards
    and leaves no error message; a failed load keeps the awards already
    stored and leaves a non-empty error message, the error's own when it
    has one. *)
Theorem loadAwards_outcomes (o : CallOutcome) (p : Page) :
  let p' := loadAwards o p in
  isLoading p' = false /\ isRefreshing p' = false
  /\ filterYear p' = filterYear p /\ filterCategory p' = filterCategory p
  /\ match o with
     | Resolved res =>
         errorMessage p' = ""
         /\ allAwards p'
            = map to_award (match res with Some l => l | None => [] end)
     | Rejected m =>
         allAwards p' = allAwards p
         /\ errorMessage p' <> ""
         /\ (m <> "" -> errorMessage p' = m)
     end.
Proof.
  destruct o as [res | m]; simpl; repeat split.
  - destruct m; simpl; discriminate.
  - destruct m; simpl; [congruence | reflexivity].
Qed.

Lemma filter_all (A : Type) (f : A -> bool) (l : list A) :
  (forall a, f a = true) -> filter f l = l.
Proof.
  intro H. induction l as [| a l IH]; simpl; [reflexivity|].
  now rewrite H, IH.
Qed.

(** X18.  After [clearFilters] the page lists all stored awards, in the
    order they are stored. *)
Theorem clearFilters_shows_all_awards (p : Page) :
  filteredAwards (clearFilters p) = allAwards p.
Proof.
  unfold filteredAwards. simpl. now apply filter_all.
Qed.

Lemma filter_map_comm (A B : Type) (f : A -> B) (g : B -> bool)
  (l : list A) :
  filter g (map f l) = map f (filter (fun a => g (f a)) l).
Proof.
  induction l as [| a l IH]; simpl; [reflexivity|].
  destruct (g (f a)); simpl; now rewrite IH.
Qed.

Lemma filteredAwards_year (p : Page) (v : string) :
  v <> "" ->
  filteredAwards (set_filterYear v (clearFilters p))
  = filter (fun a => String.eqb (year a) v) (allAwards p).
Proof.
  intro Hv. unfold filteredAwards. simpl.
  destruct v as [| c v]; [congruence|]. simpl.
  apply filter_ext. intro a. now rewrite andb_true_r.
Qed.

(** X19.  Every year option leads somewhere: with the category filter
    cleared, choosing a year option with a non-empty value lists the
    stored awards of that year, in stored order, and there is at least
    one. *)
Theorem offered_year_finds_awards (p : Page) (o : Option) :
  In o (yearOptions p) ->
  value o <> "" ->
  let shown := filteredAwards (onClick o (clearFilters p)) in
  shown = filter (fun a => String.eqb (year a) (value o)) (allAwards p)
  /\ shown <> [].
Proof.
  intros Hin Hv shown. subst shown. unfold yearOptions in Hin. simpl in Hin.
  destruct Hin as [<- | Hin]; [now contradiction Hv|].
  apply in_map_iff in Hin. destruct Hin as (v & <- & Hin). simpl in *.
  rewrite (filteredAwards_year p v Hv). split; [reflexivity|].
  apply sort_default_In, new_Set_In, in_map_iff in Hin.
  destruct Hin as (a & Ha & Hin).
  intro E.
  assert (H : In a (filter (fun a => String.eqb (year a) v) (allAwards p))).
  { apply filter_In. split; [exact Hin|]. now apply String.eqb_eq. }
  rewrite E in H. contradiction.
Qed.

(** X19 at the option for the year 2024-2025. *)
Lemma offered_year_finds_awards_witness :
  In (mkOption "2024-2025" "2024-2025" (set_filterYear "2024-2025"))
    (yearOptions (awards_page [award_academic_2025; award_sports_2024]))
  /\ filteredAwards
       (set_filterYear "2024-2025"
          (clearFilters
             (awards_page [award_academic_2025; award_sports_2024])))
     = [award_sports_2024].
Proof.
  assert (H : In (mkOption "2024-2025" "2024-2025"
                    (set_filterYear "2024-2025"))
                (yearOptions
                   (awards_page [award_academic_2025; award_sports_2024]))).
  { simpl. right. now left. }
  split; [exact H|].
  assert (Hv : value (mkOption "2024-2025" "2024-2025"
                        (set_filterYear "2024-2025")) <> "")
    by discriminate.
  exact (proj1 (offered_year_finds_awards
                  (awards_page [award_academic_2025; award_sports_2024])
                  _ H Hv)).
Defined.

(** X20.  After a successful load, choosing one of the fixed category
    options lists exactly the returned awards whose certificate type is
    that category, in the order the server returned them; an award of any
    other type shows only under 'All Categories'. *)
Theorem category_option_filters_by_type (raws : list RawAward) (p : Page)
  (o : Option) :
  In o categoryOptions ->
  value o <> "" ->
  filteredAwards
    (onClick o (clearFilters (loadAwards (Resolved (Some raws)) p)))
  = map to_award
      (filter (fun a => String.eqb (certificate_type a) (value o)) raws).
Proof.
  intros Hin Hv. unfold categoryOptions in Hin. simpl in Hin.
  destruct Hin as [<- | Hin]; [now contradiction Hv|].
  assert (H : forall c, c <> "" ->
            filteredAwards
              (set_filterCategory c
                 (clearFilters (loadAwards (Resolved (Some raws)) p)))
            = map to_award
                (filter (fun a => String.eqb (certificate_type a) c) raws)).
  { intros c Hc. unfold filteredAwards. simpl.
    destruct c as [| c0 c]; [congruence|]. simpl.
    now rewrite filter_map_comm. }
  destruct Hin as [<- | [<- | [<- | [<- | []]]]]; simpl;
    apply H; discriminate.
Qed.

(** X20 at the 'Sports' option. *)
Lemma category_option_filters_by_type_witness :
  In (mkOption "Sports" "Sports" (set_filterCategory "Sports"))
    categoryOptions
  /\ filteredAwards
       (set_filterCategory "Sports"
          (clearFilters
             (loadAwards
                (Resolved
                   (Some [mkRawAward "AW-9" "Chess" "2025-01-01" "" "Clubs"
                            "2024-2025" "";
                          mkRawAward "AW-0001" "Best Sprinter" "2024-11-02"
                            "100 m" "Sports" "2024-2025" ""]))
                (awards_page []))))
     = [award_sports_2024].
Proof.
  assert (H : In (mkOption "Sports" "Sports" (set_filterCategory "Sports"))
                categoryOptions).
  { simpl. right. right. now left. }
  split; [exact H|].
  assert (Hv : value (mkOption "Sports" "Sports"
                        (set_filterCategory "Sports")) <> "")
    by discriminate.
  exact (category_option_filters_by_type
           [mkRawAward "AW-9" "Chess" "2025-01-01" "" "Clubs" "2024-2025" "";
            mkRawAward "AW-0001" "Best Sprinter" "2024-11-02" "100 m"
              "Sports" "2024-2025" ""]
           (awards_page []) _ H Hv).
Defined.

End AwardsMore.

(** ** More on the form scripts *)

Module FormsMore.
Import Js Frappe FormSpec FormSpecMore FormProps.
Local Open Scope string_scope.

Example populate_twice_sample :
  SchoolTermResult.populate_skills (sample_server "JSS 1")
    (fst (SchoolTermResult.populate_skills (sample_server "JSS 1")
            (sample_doc "STU-001")))
  = SchoolTermResult.populate_skills (sample_server "JSS 1")
      (sample_doc "STU-001").
Proof. reflexivity. Qed.

(** The callbacks write the two tables only. *)
Lemma on_settings_header (program : string)
  (message : option SchoolTermResult.Settings) (d : SchoolTermResult.Doc) :
  same_header d (fst (SchoolTermResult.on_settings program message d)).
Proof.
  destruct message as [settings |]; simpl; [|repeat split].
  destruct (SchoolTermResult.school_level settings program)
    as [[[level pf] af] |]; simpl; repeat split.
Qed.

Lemma on_settings_twice (program : string)
  (message : option SchoolTermResult.Settings) (d : SchoolTermResult.Doc) :
  SchoolTermResult.on_settings program message
    (fst (SchoolTermResult.on_settings program message d))
  = SchoolTermResult.on_settings program message d.
Proof.
  destruct message as [settings |]; simpl; [|reflexivity].
  destruct (SchoolTermResult.school_level settings program)
    as [[[level pf] af] |]; reflexivity.
Qed.

Lemma on_enrollments_header (srv : SchoolTermResult.Server)
  (message : option (list SchoolTermResult.Enrollment))
  (d : SchoolTermResult.Doc) :
  same_header d (fst (SchoolTermResult.on_enrollments srv message d)).
Proof.
  destruct message as [[| e l] |]; simpl; try (repeat split; fail).
  pose proof (on_settings_header (SchoolTermResult.enrolled_program e)
                (SchoolTermResult.get srv
                   (Client_get "School Settings" "School Settings")) d) as H.
  destruct (SchoolTermResult.on_settings (SchoolTermResult.enrolled_program e)
              (SchoolTermResult.get srv
                 (Client_get "School Settings" "School Settings")) d).
  exact H.
Qed.

Lemma on_enrollments_twice (srv : SchoolTermResult.Server)
  (message : option (list SchoolTermResult.Enrollment))
  (d : SchoolTermResult.Doc) :
  SchoolTermResult.on_enrollments srv message
    (fst (SchoolTermResult.on_enrollments srv message d))
  = SchoolTermResult.on_enrollments srv message d.
Proof.
  destruct message as [[| e l] |]; simpl; try reflexivity.
  pose proof (on_settings_twice (SchoolTermResult.enrolled_program e)
                (SchoolTermResult.get srv
                   (Client_get "School Settings" "School Settings")) d) as H.
  destruct (SchoolTermResult.on_settings (SchoolTermResult.enrolled_program e)
              (SchoolTermResult.get srv
                 (Client_get "School Settings" "School Settings")) d)
    as [d' t]. simpl in *. rewrite H. reflexivity.
Qed.

Lemma same_header_lookup (d d' : SchoolTermResult.Doc) :
  same_header d d' ->
  enrollment_lookup d' = enrollment_lookup d
  /\ (required_set d -> required_set d').
Proof.
  intros (Hs & _ & Hy & Hg). unfold enrollment_lookup, required_set.
  rewrite Hs, Hy, Hg. tauto.
Qed.

Lemma required_set_dec (d : SchoolTermResult.Doc) :
  required_set d \/ ~ required_set d.
Proof.
  unfold required_set.
  destruct (string_dec (SchoolTermResult.assessment_group d) "");
    destruct (string_dec (SchoolTermResult.student d) "");
    destruct (string_dec (SchoolTermResult.academic_year d) ""); tauto.
Qed.

(** X21.  Running [populate_skills] again on the form it produced, against
    the same server answers, changes nothing more: the same form results
    and the same calls and messages are made. *)
Theorem populate_skills_idempotent (srv : SchoolTermResult.Server)
  (d : SchoolTermResult.Doc) :
  SchoolTermResult.populate_skills srv
    (fst (SchoolTermResult.populate_skills srv d))
  = SchoolTermResult.populate_skills srv d.
Proof.
  destruct (required_set_dec d) as [Hset | Hunset].
  - rewrite (populate_skills_set srv d Hset). simpl fst.
    set (msg := SchoolTermResult.get_list srv (enrollment_lookup d)).
    destruct (same_header_lookup d _ (on_enrollments_header srv msg d))
      as (Hl & Hr).
    rewrite (populate_skills_set srv _ (Hr Hset)). rewrite Hl. fold msg.
    now rewrite on_enrollments_twice.
  - rewrite (populate_skills_unset srv d Hunset). simpl.
    exact (populate_skills_unset srv d Hunset).
Qed.

(** X22.  After a successful population the number in the message is the
    number of rows now in the two skill tables. *)
Theorem populated_count_matches (srv : SchoolTermResult.Server)
  (d : SchoolTermResult.Doc) (program level pf af : string)
  (settings : SchoolTermResult.Settings) :
  required_set d ->
  enrolled srv d = Some program ->
  SchoolTermResult.get srv settings_lookup = Some settings ->
  SchoolTermResult.school_level settings program = Some (level, pf, af) ->
  let r := SchoolTermResult.populate_skills srv d in
  In (Msgprint
        ("✓ Skills populated for " ++ level ++ " School (" ++ program
           ++ ") - "
           ++ SchoolTermResult.nat_to_string
                (length (SchoolTermResult.psychomotor_skills (fst r))
                 + length (SchoolTermResult.affective_skills (fst r)))
           ++ " skills added"))
     (snd r).
Proof.
  intros Hset Hp Hs Hl r. subst r.
  rewrite (populate_skills_set srv d Hset).
  rewrite (on_enrollments_some srv d program Hp), Hs.
  simpl. rewrite Hl. simpl. rewrite !add_skills_cleared.
  unfold rows_of. rewrite !length_map.
  right. right. right. right. left. reflexivity.
Qed.

(** X22 at the sample server. *)
Lemma populated_count_matches_witness :
  required_set (sample_doc "STU-001")
  /\ In (Msgprint
           "✓ Skills populated for Secondary School (JSS 1) - 4 skills added")
       (snd (SchoolTermResult.populate_skills (sample_server "JSS 1")
               (sample_doc "STU-001"))).
Proof.
  assert (H : required_set (sample_doc "STU-001"))
    by (repeat split; discriminate).
  split; [exact H|].
  exact (populated_count_matches (sample_server "JSS 1")
           (sample_doc "STU-001") "JSS 1" "Secondary"
           "secondary_psychomotor_skills" "secondary_affective_skills"
           sample_settings H eq_refl eq_refl eq_refl).
Defined.

(** X23.  The Assessment Plan handler is idempotent for the same server
    answer, and when the lookup returns no policy it leaves the form as it
    was, having made its one call. *)
Theorem student_group_changed_idempotent (srv : AssessmentPlan.Server)
  (d : AssessmentPlan.Doc) :
  AssessmentPlan.student_group_changed srv
    (fst (AssessmentPlan.student_group_changed srv d))
  = AssessmentPlan.student_group_changed srv d
  /\ (AssessmentPlan.student_group d <> "" ->
      srv (Get_policy_details (AssessmentPlan.student_group d)) = None ->
      AssessmentPlan.student_group_changed srv d
      = (d, [Called (Get_policy_details (AssessmentPlan.student_group d))])).
Proof.
  unfold AssessmentPlan.student_group_changed. split.
  - destruct (str_truthy (AssessmentPlan.student_group d)) eqn:E.
    + destruct (srv (Get_policy_details (AssessmentPlan.student_group d)))
        as [policy |] eqn:Ep; simpl.
      * rewrite fold_add_child. simpl. rewrite E, Ep. simpl.
        rewrite fold_add_child. reflexivity.
      * rewrite E, Ep. reflexivity.
    + simpl. rewrite E. reflexivity.
  - intros H Hn. apply truthy_true_nonempty in H. rewrite H, Hn. reflexivity.
Qed.

End FormsMore.

